(** * install_ffmpeg.js: the platform-dispatch acquisition workflow

    A shallow embedding of [install_ffmpeg.js] (beamcoder): the transfer
    agent [get], the archive extractor [unzipFile], the three platform
    branches [win32], [linux], [darwin] and the top-level [switch] on
    [os.platform()].

    Everything the script asks of its host (the operating system name, the
    answers of child processes, of the network and of the file system) is
    an input of the model, gathered in the record [host].  Everything the
    script does to its host is recorded, in order, in a trace of [effect]s. *)

From Stdlib Require Import ZArith Lia Ascii String Strings.Byte List Bool Sorted.
From stdpp Require Import base tactics list sets strings.

Local Open Scope Z_scope.

(** ** JavaScript strings *)

Module JsString.

(** [s.indexOf(t)]: the least position at which [t] occurs in [s], and
    [-1] when it occurs nowhere. *)
Fixpoint indexOf_from (i : Z) (s t : string) : Z :=
  if String.prefix t s then i
  else match s with
       | EmptyString => -1
       | String _ s' => indexOf_from (i + 1) s' t
       end.

Definition indexOf (s t : string) : Z := indexOf_from 0 s t.

(** [t] occurs in [s]: the declarative reading of "is a substring". *)
Definition occurs_in (t s : string) : Prop :=
  ∃ pre post : string, s = pre +:+ t +:+ post.

(** [/\/$/.test(s)]: the last character of [s] is a slash. *)
Fixpoint ends_with_slash (s : string) : bool :=
  match s with
  | EmptyString => false
  | String c EmptyString => Ascii.eqb c "/"
  | String _ s' => ends_with_slash s'
  end.

(** [s.split('/')[0]]: the characters of [s] before its first slash. *)
Fixpoint split_slash_0 (s : string) : string :=
  match s with
  | EmptyString => EmptyString
  | String c s' => if Ascii.eqb c "/" then EmptyString
                   else String c (split_slash_0 s')
  end.

(** The lines of a text, as a terminal shows them. *)
Fixpoint lines_from (cur : string) (s : string) : list string :=
  match s with
  | EmptyString => [cur]
  | String c s' =>
      if Ascii.eqb c "010" then cur :: lines_from EmptyString s'
      else lines_from (cur +:+ String c EmptyString) s'
  end.

Definition lines (s : string) : list string := lines_from EmptyString s.

End JsString.

Import JsString.

(** ** Errors, effects and the process monad *)

(** A JavaScript error object, with the properties the script reads:
    [err.name], [err.message], [e.code] and [err.stderr]. *)
Record js_error := mk_error {
  err_name : string;
  err_message : option string;
  err_code : option string;
  err_stderr : string
}.

(** What an awaited child process answers. *)
Inductive exec_result :=
| ExecOk (stdout : string)
| ExecFail (err : js_error).

(** What the script does to its host, one constructor per kind of call. *)
Inductive effect :=
| ConsoleLog (text : string)
| ConsoleError (text : string)
| ConsoleErrorObj (err : js_error)
| Progress (name : string) (received : Z) (totalLength : option Z)
| Downloaded (name : string) (received : Z)
| Exec (command : string)
| ExecFile (file : string) (args : list string)
| FsMkdir (path : string)
| FsAccess (path : string)
| FsCreateWriteStream (path : string)
| FsRename (from to : string)
| HttpsGet (url : option string)
| WsWrite (path : string) (chunk : list Byte.byte)
| WsEnd (path : string)
| Unzip (archive dest : string).

(** Console output is harmless; every other effect touches the network,
    the file system or a child process. *)
Definition is_console (e : effect) : bool :=
  match e with
  | ConsoleLog _ | ConsoleError _ | ConsoleErrorObj _
  | Progress _ _ _ | Downloaded _ _ => true
  | _ => false
  end.

(** How a piece of the script ends: it returns, it throws (a rejected
    promise), it calls [process.exit], or an exception leaves a callback
    of the host, where no handler of the script can catch it. *)
Inductive outcome (A : Type) :=
| Ret (a : A)
| Throw (err : js_error)
| Exit (code : Z)
| Crash (err : js_error).
Arguments Ret {A} a.
Arguments Throw {A} err.
Arguments Exit {A} code.
Arguments Crash {A} err.

(** A computation appends to the trace of effects and ends in an outcome. *)
Definition M (A : Type) : Type := list effect → outcome A * list effect.

Definition ret {A} (a : A) : M A := λ tr, (Ret a, tr).
Definition throw {A} (err : js_error) : M A := λ tr, (Throw err, tr).
Definition process_exit {A} (code : Z) : M A := λ tr, (Exit code, tr).
Definition uncaught {A} (err : js_error) : M A := λ tr, (Crash err, tr).
Definition emit (e : effect) : M unit := λ tr, (Ret tt, tr ++ [e]).

Definition bind {A B} (k : A → M B) (m : M A) : M B :=
  λ tr, match m tr with
        | (Ret a, tr') => k a tr'
        | (Throw err, tr') => (Throw err, tr')
        | (Exit code, tr') => (Exit code, tr')
        | (Crash err, tr') => (Crash err, tr')
        end.

#[global] Instance M_ret : MRet M := @ret.
#[global] Instance M_bind : MBind M := @bind.

(** [m.catch(h)] and [try { m } catch (err) { h err }]. *)
Definition catch {A} (m : M A) (h : js_error → M A) : M A :=
  λ tr, match m tr with
        | (Throw err, tr') => h err tr'
        | r => r
        end.

Definition console_log (text : string) : M unit := emit (ConsoleLog text).
Definition console_error (text : string) : M unit := emit (ConsoleError text).
Definition console_error_obj (err : js_error) : M unit :=
  emit (ConsoleErrorObj err).

(** Awaiting a promisified [exec] or [execFile]: the host's answer is
    returned or thrown. *)
Definition await_exec (r : exec_result) : M string :=
  match r with
  | ExecOk out => ret out
  | ExecFail err => throw err
  end.

Definition TypeError (msg : string) : js_error :=
  mk_error "TypeError" (Some msg) None "".

(** ** The library verifier: [linux] *)

Module Linux.

(** One [if (stdout.indexOf(lib) < 0) { ... }] block. [result] is the
    variable of that name. *)
Definition check (stdout lib : string) (result : Z) : M Z :=
  if indexOf stdout lib <? 0 then
    console_error (lib +:+ " is not installed.");;
    ret 1
  else ret result.

Definition remediation : string :=
  "Try running the following (Ubuntu/Debian):
sudo add-apt-repository ppa:jonathonf/ffmpeg-4
sudo apt-get install libavcodec-dev libavformat-dev libavdevice-dev libavfilter-dev libavutil-dev libpostproc-dev libswresample-dev libswscale-dev".

Definition linux (ldconfig : exec_result) : M Z :=
  console_log "Checking FFmpeg dependencies for Beam Coder on Linux.";;
  emit (ExecFile "ldconfig" ["-p"]);;
  stdout ← catch (await_exec ldconfig)
             (λ err, console_error_obj err;;
                     throw (TypeError "Cannot destructure property 'stdout'"));
  let result := 0 in
  result ← check stdout "libavcodec.so.59" result;
  result ← check stdout "libavformat.so.59" result;
  result ← check stdout "libavdevice.so.59" result;
  result ← check stdout "libavfilter.so.8" result;
  result ← check stdout "libavutil.so.57" result;
  result ← check stdout "libpostproc.so.56" result;
  result ← check stdout "libswresample.so.4" result;
  result ← check stdout "libswscale.so.6" result;
  if result =? 1 then
    console_log remediation;;
    process_exit 1
  else ret result.

(** The eight libraries the script looks for, each with the package of
    the remediation command that provides it. *)
Definition required : list (string * string) :=
  [ ("libavcodec.so.59", "libavcodec-dev");
    ("libavformat.so.59", "libavformat-dev");
    ("libavdevice.so.59", "libavdevice-dev");
    ("libavfilter.so.8", "libavfilter-dev");
    ("libavutil.so.57", "libavutil-dev");
    ("libpostproc.so.56", "libpostproc-dev");
    ("libswresample.so.4", "libswresample-dev");
    ("libswscale.so.6", "libswscale-dev") ].

End Linux.

(** ** The package-manager bridge: [darwin] *)

Module Darwin.

Definition darwin (brew_list brew_install : exec_result) : M Z :=
  console_log "Checking for FFmpeg dependencies via HomeBrew.";;
  '(output, returnMessage) ←
    catch
      (emit (Exec "brew list ffmpeg@5");;
       output ← await_exec brew_list;
       ret (output, "FFmpeg already present via Homebrew."))
      (λ err,
         (if (indexOf (err_stderr err) "Error: No such keg" =? -1)
             && (indexOf (err_stderr err) "ffmpeg@5" =? -1)
          then
            console_error_obj err;;
            console_log "Either Homebrew is not installed or something else is wrong.
Exiting";;
            process_exit 1
          else ret tt);;
         console_log "FFmpeg not installed. Attempting to install via Homebrew.";;
         catch
           (emit (Exec "brew install nasm pkg-config texi2html ffmpeg@5");;
            output ← await_exec brew_install;
            ret (output, "FFmpeg installed via Homebrew."))
           (λ err,
              console_log "Failed to install ffmpeg:
";;
              console_error_obj err;;
              process_exit 1));
  console_log output;;
  console_log returnMessage;;
  ret 0.

End Darwin.

(** ** The transfer agent: [get] *)

Module Transfer.

(** How the body of a response ends: [res] emits ['end'] or ['error']. *)
Inductive body_end :=
| BodyEnd
| BodyError (err : js_error).

(** An [http.IncomingMessage]: [res.statusCode], [res.headers.location],
    [+res.headers['content-length']] ([None] for [NaN]), the chunks of
    its ['data'] events and the event that ends it. *)
Record response := mk_response {
  statusCode : Z;
  location : option string;
  content_length : option Z;
  chunks : list (list Byte.byte);
  ending : body_end
}.

(** What [https.get] answers: an ['error'] of the request, or a response. *)
Inductive http_result :=
| RequestError (err : js_error)
| Response (res : response).

(** The object [{ name: 'RedirectError', message: res.headers.location }]. *)
Definition RedirectError (location : option string) : js_error :=
  mk_error "RedirectError" location None "".

(** The ['data'] events of a piped response, one chunk after the other:
    [res.pipe(ws)] writes the chunk, then the handler of [get] counts it
    and prints the progress. *)
Fixpoint on_data (ws name : string) (totalLength : option Z)
    (received : Z) (cs : list (list Byte.byte)) : M Z :=
  match cs with
  | [] => ret received
  | x :: cs' =>
      emit (WsWrite ws x);;
      let received := received + Z.of_nat (length x) in
      emit (Progress name received totalLength);;
      on_data ws name totalLength received cs'
  end.

(** [get(ws, url, name)], given what the network answers for [url]. *)
Definition get (ws : string) (url : option string) (name : string)
    (net : http_result) : M unit :=
  let received := 0 in
  emit (HttpsGet url);;
  match net with
  | RequestError err => throw err
  | Response res =>
      if (statusCode res =? 301) || (statusCode res =? 302) then
        throw (RedirectError (location res))
      else
        let totalLength := content_length res in
        received ← on_data ws name totalLength received (chunks res);
        match ending res with
        | BodyEnd =>
            emit (WsEnd ws);;
            emit (Downloaded name received);;
            ret tt
        | BodyError err => throw err
        end
  end.

End Transfer.

(** ** The Windows branch: [win32] *)

Module Win32.
Import Transfer.

(** What a file-system call answers. *)
Inductive fs_result :=
| FsOk
| FsFail (err : js_error).

(** What the Windows branch asks of its host. *)
Record host := mk_host {
  mkdir_ffmpeg : fs_result;
  access_ffmpeg : fs_result;
  net_first : http_result;
  net_second : option string → http_result;
  npm_install : exec_result;
  unzip_result : js_error + string;
  rename_result : fs_result
}.

Definition await_fs (r : fs_result) : M unit :=
  match r with
  | FsOk => ret tt
  | FsFail err => throw err
  end.

Definition ffmpegFilename : string := "ffmpeg-5.x-win64-shared".
Definition url : string :=
  "https://github.com/GyanD/codexffmpeg/releases/download/5.1.2/ffmpeg-5.1.2-full_build-shared.zip".

(** [unzipFile] as the Windows branch sees it. The extraction resolves
    with the root entry name ([inr root]), or it fails ([inl err]): each
    [reject] of [unzipFile] (lines 108 and 119) is followed, in the same
    callback, by a call on [undefined], and an ['error'] event of the
    zipfile or of a write stream has no listener; either way the
    exception [err] leaves a callback of the host and ends the process
    before the rejection is seen. *)
Definition await_unzip (archive dest : string) (r : js_error + string)
    : M string :=
  emit (Unzip archive dest);;
  match r with
  | inl err => uncaught err
  | inr root => ret root
  end.

Definition zip_name : string := ffmpegFilename +:+ ".zip".
Definition zip_path : string := "ffmpeg/" +:+ ffmpegFilename +:+ ".zip".

(** Lines 164 to 171: the transfer, with its one redirect. *)
Definition download (h : host) : M unit :=
  let ws_shared := zip_path in
  emit (FsCreateWriteStream ws_shared);;
  catch
    (get ws_shared (Some url) zip_name (net_first h))
    (λ err,
       if decide (err_name err = "RedirectError") then
         let redirectURL := err_message err in
         get ws_shared redirectURL zip_name (net_second h redirectURL)
       else console_error_obj err).

(** Lines 173 to 175: the extraction and the rename. *)
Definition extract (h : host) : M unit :=
  emit (Exec "npm install yauzl --no-save");;
  _ ← await_exec (npm_install h);
  root ← await_unzip zip_path "ffmpeg" (unzip_result h);
  emit (FsRename ("ffmpeg/" +:+ root) ("ffmpeg/" +:+ ffmpegFilename));;
  await_fs (rename_result h).

Definition win32 (h : host) : M unit :=
  console_log "Checking/Installing FFmpeg dependencies for Beam Coder on Windows.";;
  catch (emit (FsMkdir "ffmpeg");; await_fs (mkdir_ffmpeg h))
    (λ e, if decide (err_code e = Some "EEXIST") then ret tt else throw e);;
  catch
    (emit (FsAccess ("ffmpeg/" +:+ ffmpegFilename));;
     await_fs (access_ffmpeg h))
    (λ _, download h;; extract h).

End Win32.

(** ** The platform dispatcher: the top-level [switch] *)

Module Dispatcher.

(** What the script reads from its host. *)
Record host := mk_host {
  platform : string;           (* os.platform() *)
  arch : string;               (* os.arch() *)
  ldconfig : exec_result;      (* ldconfig -p *)
  brew_list : exec_result;     (* brew list ffmpeg@5 *)
  brew_install : exec_result;  (* brew install ... *)
  windows : Win32.host
}.

Inductive branch := BWin32 | BLinux | BDarwin.

(** The call of a platform function as the [switch] writes it:
    [win32().catch(console.error)], [linux()], [darwin()]. *)
Definition run_branch (b : branch) (h : host) : M unit :=
  match b with
  | BWin32 => catch (Win32.win32 (windows h)) console_error_obj
  | BLinux => Linux.linux (ldconfig h);; ret tt
  | BDarwin => Darwin.darwin (brew_list h) (brew_install h);; ret tt
  end.

Definition only_64_bit : M unit :=
  console_error "Only 64-bit platforms are supported.";;
  process_exit 1.

(** [x != y] on strings. *)
Definition neq (x y : string) : bool := negb (String.eqb x y).

Definition script (h : host) : M unit :=
  if String.eqb (platform h) "win32" then
    if neq (arch h) "x64" then only_64_bit
    else run_branch BWin32 h
  else if String.eqb (platform h) "linux" then
    if neq (arch h) "x64" && neq (arch h) "arm64" then only_64_bit
    else run_branch BLinux h
  else if String.eqb (platform h) "darwin" then
    if neq (arch h) "x64" && neq (arch h) "arm64" then only_64_bit
    else run_branch BDarwin h
  else
    console_error ("Platfrom " +:+ platform h +:+ " is not supported.").

(** How the node process ends. A script that runs to its end without
    [process.exit] leaves the exit status 0; an exception that nothing
    catches is printed and ends the process with exit status 1. *)
Inductive process_end :=
| ExitStatus (code : Z)
| UnhandledRejection (err : js_error)
| UncaughtException (err : js_error).

Definition main (h : host) : process_end * list effect :=
  match script h [] with
  | (Ret _, tr) => (ExitStatus 0, tr)
  | (Exit code, tr) => (ExitStatus code, tr)
  | (Throw err, tr) => (UnhandledRejection err, tr)
  | (Crash err, tr) => (UncaughtException err, tr)
  end.

(** The (OS, architecture) pairs for which the [switch] reaches a
    platform function. *)
Definition supported (os cpu : string) : option branch :=
  if String.eqb os "win32" then
    if String.eqb cpu "x64" then Some BWin32 else None
  else if String.eqb os "linux" then
    if String.eqb cpu "x64" || String.eqb cpu "arm64" then Some BLinux else None
  else if String.eqb os "darwin" then
    if String.eqb cpu "x64" || String.eqb cpu "arm64" then Some BDarwin else None
  else None.

End Dispatcher.

(** ** The archive extractor: [unzipFile] *)

(** The two functions of node's [path] module that [unzipFile] calls. *)
Class Path := {
  path_join : string → string → string;
  path_dirname : string → string
}.

Module Unzip.

(** A write stream created by [fs.createWriteStream]: the read stream of
    its entry is piped into it ([Piping]); when the read stream ends the
    pipe ends the write stream ([Ending]); at last it emits ['close']. *)
Inductive wstatus := Piping | Ending | Closed.

Record wstream := mk_wstream {
  w_entry : string;
  w_path : string;
  w_status : wstatus
}.

(** The zipfile of [yauzl.open(..., { lazyEntries: true })]: it emits
    one ['entry'] or the final ['end'] for each [readEntry()]. *)
Inductive zstatus := ZOpening | ZRequested | ZIdle | ZEnded.

(** A call of [resolve] or [reject]. *)
Inductive settle :=
| Resolve (root : string)
| Reject (err : js_error).

(** The variables of [unzipFile] and of its promise executor. *)
Record vars := mk_vars {
  handles : Z;
  rootPath : string;
  settled : list settle;
  trace : list effect
}.

(** The objects of the host that the extraction holds. *)
Record env := mk_env {
  zip : zstatus;
  pending : list string;     (* the entries not yet emitted *)
  opening : option string;   (* the entry of a pending openReadStream *)
  streams : list wstream;    (* the write streams, in creation order *)
  crashed : bool             (* an uncaught exception ended the process *)
}.

Definition state : Type := vars * env.

Inductive event :=
| EvOpened                          (* yauzl.open calls back with the zipfile *)
| EvOpenFailed (err : js_error)     (* yauzl.open calls back with an error *)
| EvEntry                           (* the zipfile emits 'entry' *)
| EvEnd                             (* the zipfile emits 'end' *)
| EvReadStream (dir_exists : bool)  (* openReadStream calls back with a stream *)
| EvReadStreamFailed (err : js_error)
| EvReadEnd (i : nat)               (* the read stream piped into stream i ends *)
| EvWriteClose (i : nat)            (* write stream i emits 'close' *)
| EvUncaught.                       (* an 'error' event without a listener *)

Definition log (e : effect) (v : vars) : vars :=
  mk_vars (handles v) (rootPath v) (settled v) (trace v ++ [e]).

Definition settle_with (s : settle) (v : vars) : vars :=
  mk_vars (handles v) (rootPath v) (settled v ++ [s]) (trace v).

Definition set_status (i : nat) (s : wstatus) (ws : list wstream)
    : list wstream :=
  alter (λ w, mk_wstream (w_entry w) (w_path w) s) i ws.

Section WithArchive.
Context `{Path}.
Variables archiveName destFolder : string.

Definition incHandles (v : vars) : vars :=
  mk_vars (handles v + 1) (rootPath v) (settled v) (trace v).

Definition decHandles (v : vars) : vars :=
  let v := mk_vars (handles v - 1) (rootPath v) (settled v) (trace v) in
  if handles v =? 0 then
    let v := log (ConsoleLog ("Unzipping of '" +:+ archiveName
                               +:+ "' completed.")) v in
    settle_with (Resolve (rootPath v)) v
  else v.

(** [zipfile.readEntry()]. *)
Definition readEntry (e : env) : env :=
  mk_env ZRequested (pending e) (opening e) (streams e) (crashed e).

(** An uncaught exception: the process dies where it stands. *)
Definition crash (e : env) : env :=
  mk_env (zip e) (pending e) (opening e) (streams e) true.

(** The body of the callback of [zipfile.openReadStream], without
    error: lines 120 to 138. *)
Definition on_read_stream (fileName : string) (dir_exists : bool)
    (st : state) : state :=
  let '(v, e) := st in
  let destPath := path_join destFolder fileName in
  let v := if String.eqb (rootPath v) "" then
             mk_vars (handles v) (split_slash_0 fileName) (settled v) (trace v)
           else v in
  let v := if dir_exists then v
           else log (FsMkdir (path_dirname destPath)) v in
  let v := incHandles v in
  let v := log (FsCreateWriteStream destPath) v in
  (v, mk_env (zip e) (pending e) None
        (streams e ++ [mk_wstream fileName destPath Piping]) (crashed e)).

(** The handler of ['entry']: lines 110 to 141. *)
Definition on_entry (fileName : string) (st : state) : state :=
  let '(v, e) := st in
  if ends_with_slash fileName then (v, readEntry e)
  else (v, mk_env (zip e) (pending e) (Some fileName) (streams e) (crashed e)).

(** One event of the host, when the host can emit it. *)
Definition step (ev : event) (st : state) : option state :=
  let '(v, e) := st in
  if crashed e then None else
  match ev with
  | EvOpened =>
      match zip e with
      | ZOpening => Some (v, readEntry e)
      | _ => None
      end
  | EvOpenFailed err =>
      match zip e with
      | ZOpening => Some (settle_with (Reject err) v, crash e)
      | _ => None
      end
  | EvEntry =>
      match zip e, pending e with
      | ZRequested, fileName :: rest =>
          Some (on_entry fileName
                  (v, mk_env ZIdle rest (opening e) (streams e) (crashed e)))
      | _, _ => None
      end
  | EvEnd =>
      match zip e, pending e with
      | ZRequested, [] =>
          Some (decHandles v,
                mk_env ZEnded [] (opening e) (streams e) (crashed e))
      | _, _ => None
      end
  | EvReadStream dir_exists =>
      match opening e with
      | Some fileName => Some (on_read_stream fileName dir_exists (v, e))
      | None => None
      end
  | EvReadStreamFailed err =>
      match opening e with
      | Some _ => Some (settle_with (Reject err) v, crash e)
      | None => None
      end
  | EvReadEnd i =>
      match streams e !! i with
      | Some (mk_wstream _ _ Piping) =>
          Some (v, readEntry
                     (mk_env (zip e) (pending e) (opening e)
                        (set_status i Ending (streams e)) (crashed e)))
      | _ => None
      end
  | EvWriteClose i =>
      match streams e !! i with
      | Some (mk_wstream _ _ Ending) =>
          Some (decHandles v,
                mk_env (zip e) (pending e) (opening e)
                  (set_status i Closed (streams e)) (crashed e))
      | _ => None
      end
  | EvUncaught => Some (v, crash e)
  end.

Fixpoint run (evs : list event) (st : state) : option state :=
  match evs with
  | [] => Some st
  | ev :: evs' =>
      match step ev st with
      | Some st' => run evs' st'
      | None => None
      end
  end.

(** [unzipFile(archiveName, destFolder)] up to the call of
    [yauzl.open]: lines 83 to 107. [dest_exists] is the answer of
    [fs.existsSync(destFolder)], [entries] the file names of the
    archive in the order of its central directory. *)
Definition start (dest_exists : bool) (entries : list string) : state :=
  let v := mk_vars 0 "" [] [] in
  let v := if dest_exists then v else log (FsMkdir destFolder) v in
  let v := log (ConsoleLog ("Unzipping '" +:+ archiveName +:+ "' to '"
                             +:+ destFolder +:+ "'.")) v in
  let v := incHandles v in
  (v, mk_env ZOpening entries None [] false).

(** The states an extraction passes through. *)
Definition reachable (dest_exists : bool) (entries : list string)
    (st : state) : Prop :=
  ∃ evs, run evs (start dest_exists entries) = Some st.

(** The events of one entry handled to its end before the next one is
    requested, and of a whole archive handled that way. [n] is the
    number of write streams created so far. *)
Fixpoint schedule (n : nat) (entries : list string) : list event :=
  match entries with
  | [] => [EvEnd]
  | fileName :: rest =>
      if ends_with_slash fileName then EvEntry :: schedule n rest
      else EvEntry :: EvReadStream false :: EvReadEnd n :: EvWriteClose n
             :: schedule (S n) rest
  end.

(** The root entry name the code arrives at: the first non-empty
    leading segment among the file entries. *)
Fixpoint root_of (files : list string) : string :=
  match files with
  | [] => ""
  | fileName :: rest =>
      if String.eqb (split_slash_0 fileName) "" then root_of rest
      else split_slash_0 fileName
  end.

Definition is_file (fileName : string) : bool :=
  negb (ends_with_slash fileName).

End WithArchive.

End Unzip.

(** * Vocabulary of the properties *)

(** The verifier's test of one library, and the line it prints for a
    library it misses. *)
Definition absent (listing lib : string) : bool := indexOf listing lib <? 0.

Definition not_installed (lib : string) : effect :=
  ConsoleError (lib +:+ " is not installed.").

(** The blocks of [linux] for a list of libraries, one after the other,
    and then the rest [k] of the function. *)
Fixpoint checks {B} (stdout : string) (libs : list string) (result : Z)
    (k : Z → M B) : M B :=
  match libs with
  | [] => k result
  | lib :: libs' =>
      result ← Linux.check stdout lib result;
      checks stdout libs' result k
  end.

(** What [linux] has done when it comes to its first block. *)
Definition header : list effect :=
  [ConsoleLog "Checking FFmpeg dependencies for Beam Coder on Linux.";
   ExecFile "ldconfig" ["-p"]].

(** The lines of text a trace shows on the console. *)
Definition printed_lines (tr : list effect) : list string :=
  flat_map (λ e, match e with
                 | ConsoleLog text | ConsoleError text => lines text
                 | _ => []
                 end) tr.

(** A line names a package when the name of the package occurs in it. *)
Definition names (pkg line : string) : bool := 0 <=? indexOf line pkg.

(** The effects of a trace that are not console output. *)
Definition side_effects (tr : list effect) : list effect :=
  filter (λ e, is_console e = false) tr.

(** ** Vocabulary of the Windows branch *)

(** The transfer fails with [err] and not by a redirect of [get]: the
    request fails, or the body of a response that is not a 301 or a 302
    does. *)
Definition transfer_fails (net : Transfer.http_result) (err : js_error)
    : Prop :=
  net = Transfer.RequestError err
  ∨ ∃ res, net = Transfer.Response res
           ∧ Transfer.statusCode res ≠ 301 ∧ Transfer.statusCode res ≠ 302
           ∧ Transfer.ending res = Transfer.BodyError err.

(** The effects of [get]. *)
Definition is_transfer (e : effect) : Prop :=
  match e with
  | HttpsGet _ | WsWrite _ _ | WsEnd _ | Progress _ _ _ | Downloaded _ _ => True
  | _ => False
  end.

(** The effects of lines 173 to 175. *)
Definition is_extraction (e : effect) : Prop :=
  match e with
  | Exec _ | Unzip _ _ | FsRename _ _ => True
  | _ => False
  end.

(** [mkdir('ffmpeg')] succeeds, or fails because the directory exists. *)
Definition mkdir_passes (r : Win32.fs_result) : Prop :=
  r = Win32.FsOk ∨ ∃ e, r = Win32.FsFail e ∧ err_code e = Some "EEXIST".

(** What [win32] has done when the access check has failed. *)
Definition win32_prefix : list effect :=
  [ConsoleLog "Checking/Installing FFmpeg dependencies for Beam Coder on Windows.";
   FsMkdir "ffmpeg";
   FsAccess ("ffmpeg/" +:+ Win32.ffmpegFilename);
   FsCreateWriteStream Win32.zip_path].

(** ** Vocabulary of the archive extractor *)

Module UnzipSpec.
Import Unzip.

#[global] Instance wstatus_eq_dec : EqDecision wstatus.
Proof. solve_decision. Defined.

(** The number of write streams whose status satisfies [p]. *)
Fixpoint count (p : wstatus → bool) (ws : list wstream) : nat :=
  match ws with
  | [] => 0
  | w :: ws' => (if p (w_status w) then 1 else 0) + count p ws'
  end.

Definition is_open (s : wstatus) : bool :=
  match s with Closed => false | _ => true end.

Definition is_piping (s : wstatus) : bool :=
  match s with Piping => true | _ => false end.

(** The read streams the extraction is waiting for: a pending
    [openReadStream] and the streams that are being piped. *)
Definition readers (e : env) : nat :=
  (if opening e is Some _ then 1 else 0) + count is_piping (streams e).

(** The arguments of the calls of [resolve]. *)
Definition resolves (ss : list settle) : list string :=
  omap (λ s, match s with Resolve root => Some root | Reject _ => None end) ss.

(** The paths of the calls of [fs.createWriteStream]. *)
Definition created (tr : list effect) : list string :=
  omap (λ e, match e with FsCreateWriteStream p => Some p | _ => None end) tr.

Definition opening_list (e : env) : list string :=
  match opening e with Some fileName => [fileName] | None => [] end.

Section Invariant.
Context `{Path}.
Variables archiveName destFolder : string.
Variable entries : list string.

(** What holds of every state of an extraction of [entries]. *)
Record invariant (st : state) : Prop := {
  inv_handles :
    handles st.1 = (if zip st.2 is ZEnded then 0 else 1)
                   + Z.of_nat (count is_open (streams st.2));
  inv_readers :
    readers st.2 = if zip st.2 is ZIdle then 1%nat else 0%nat;
  inv_opening : zip st.2 = ZOpening → streams st.2 = [];
  inv_ended : zip st.2 = ZEnded → pending st.2 = [];
  inv_resolves :
    resolves (settled st.1)
    = if handles st.1 =? 0 then [rootPath st.1] else [];
  inv_progress :
    ∃ emitted, entries = emitted ++ pending st.2
               ∧ filter (λ f, is_file f = true) emitted
                 = (w_entry <$> streams st.2) ++ opening_list st.2;
  inv_root : rootPath st.1 = root_of (w_entry <$> streams st.2);
  inv_paths :
    w_path <$> streams st.2
    = path_join destFolder <$> (w_entry <$> streams st.2);
  inv_created : created (trace st.1) = w_path <$> streams st.2
}.

End Invariant.

End UnzipSpec.

(** ** Sample hosts *)

Module Sample.
Import Transfer.

Definition econnreset : js_error :=
  mk_error "Error" (Some "socket hang up") (Some "ECONNRESET") "".

Definition enoent : js_error :=
  mk_error "Error" (Some "no such file or directory") (Some "ENOENT") "".

(** A Windows host without [ffmpeg/ffmpeg-5.x-win64-shared], whose
    network answers the first request with [first] and a second one with
    [second], and on which everything else succeeds: the archive has the
    root entry [ffmpeg-5.1.2-full_build-shared]. *)
Definition windows (first second : http_result) : Win32.host :=
  Win32.mk_host Win32.FsOk (Win32.FsFail enoent) first (λ _, second)
    (ExecOk "added 1 package") (inr "ffmpeg-5.1.2-full_build-shared")
    Win32.FsOk.

(** The exception of line 109, [zipfile.readEntry()] where
    [yauzl.open] has called back with an error and no zipfile. *)
Definition no_zipfile : js_error :=
  TypeError "Cannot read properties of undefined (reading 'readEntry')".

(** A Windows host without [ffmpeg/ffmpeg-5.x-win64-shared] and without
    network: every request fails, the archive file stays empty, and the
    extraction dies where [yauzl.open] cannot open it. *)
Definition offline : Win32.host :=
  Win32.mk_host Win32.FsOk (Win32.FsFail enoent)
    (RequestError econnreset) (λ _, RequestError econnreset)
    (ExecOk "added 1 package") (inl no_zipfile) Win32.FsOk.

(** A host of the given platform whose child processes answer as given. *)
Definition host (os cpu : string) (ldconfig brew_list brew_install : exec_result)
    : Dispatcher.host :=
  Dispatcher.mk_host os cpu ldconfig brew_list brew_install offline.

(** A linker cache with every required library but [libpostproc.so.56]. *)
Definition listing_without_postproc : string :=
  "	libavcodec.so.59 (libc6,x86-64) => /lib/x86_64-linux-gnu/libavcodec.so.59
	libavformat.so.59 (libc6,x86-64) => /lib/x86_64-linux-gnu/libavformat.so.59
	libavdevice.so.59 (libc6,x86-64) => /lib/x86_64-linux-gnu/libavdevice.so.59
	libavfilter.so.8 (libc6,x86-64) => /lib/x86_64-linux-gnu/libavfilter.so.8
	libavutil.so.57 (libc6,x86-64) => /lib/x86_64-linux-gnu/libavutil.so.57
	libswresample.so.4 (libc6,x86-64) => /lib/x86_64-linux-gnu/libswresample.so.4
	libswscale.so.6 (libc6,x86-64) => /lib/x86_64-linux-gnu/libswscale.so.6
".

(** Paths joined and split at slashes, for names that need no
    normalisation. *)
Fixpoint after_slash (s : string) : string :=
  match s with
  | EmptyString => EmptyString
  | String c s' => if Ascii.eqb c "/" then s' else after_slash s'
  end.

#[local] Instance posix : Path := {|
  path_join a b := a +:+ "/" +:+ b;
  path_dirname p := String.rev (after_slash (String.rev p))
|}.

(** The archive of three entries, one of them a directory. *)
Definition archive : list string :=
  ["root/a.txt"; "root/sub/"; "root/sub/b.txt"].

(** An extraction of [archive] in which the second file is read while
    the first one is still being written, and the first write stream
    closes last. *)
Definition pipelined : list Unzip.event :=
  [Unzip.EvOpened;
   Unzip.EvEntry; Unzip.EvReadStream false; Unzip.EvReadEnd 0;
   Unzip.EvEntry;
   Unzip.EvEntry; Unzip.EvReadStream true; Unzip.EvReadEnd 1;
   Unzip.EvEnd;
   Unzip.EvWriteClose 1; Unzip.EvWriteClose 0].

Definition extraction : Unzip.state :=
  default (Unzip.start "ffmpeg/x.zip" "ffmpeg" true archive)
    (Unzip.run "ffmpeg/x.zip" "ffmpeg" pipelined
       (Unzip.start "ffmpeg/x.zip" "ffmpeg" true archive)).

(** A host whose operating system the script does not know. *)
Definition freebsd_host : Dispatcher.host :=
  host "freebsd" "x64" (ExecOk "") (ExecOk "") (ExecOk "").

Definition linux_host : Dispatcher.host :=
  host "linux" "x64" (ExecOk listing_without_postproc)
    (ExecOk "") (ExecOk "").

(** The error of [brew list ffmpeg@5] where the package is missing. *)
Definition no_such_keg : js_error :=
  mk_error "Error" (Some "Command failed: brew list ffmpeg@5") None
    "Error: No such keg: /usr/local/Cellar/ffmpeg@5
".

Definition darwin_host : Dispatcher.host :=
  host "darwin" "arm64" (ExecOk "") (ExecFail no_such_keg)
    (ExecOk "ffmpeg@5 was successfully installed").

End Sample.

(** ** Vocabulary of the macOS branch *)

(** The guard of line 235: the error output of the query shows neither
    mark of a package that is not installed. *)
Definition no_signal (err : js_error) : bool :=
  (indexOf (err_stderr err) "Error: No such keg" =? -1)
  && (indexOf (err_stderr err) "ffmpeg@5" =? -1).

Definition not_found_signal (err : js_error) : bool := negb (no_signal err).

Definition brew_list_command : string := "brew list ffmpeg@5".
Definition brew_install_command : string :=
  "brew install nasm pkg-config texi2html ffmpeg@5".

(** The trace of a macOS run that gives up on a failed query. *)
Definition fatal_trace (err : js_error) : list effect :=
  [ConsoleLog "Checking for FFmpeg dependencies via HomeBrew.";
   Exec brew_list_command;
   ConsoleErrorObj err;
   ConsoleLog "Either Homebrew is not installed or something else is wrong.
Exiting"].

(** The trace of a macOS run up to the answer of the installation. *)
Definition install_trace : list effect :=
  [ConsoleLog "Checking for FFmpeg dependencies via HomeBrew.";
   Exec brew_list_command;
   ConsoleLog "FFmpeg not installed. Attempting to install via Homebrew.";
   Exec brew_install_command].

(** * The page fetcher: [getHTML] *)

Module Html.
Import Transfer.

(** The ['data'] events of [getHTML], one chunk after the other: the
    chunk is pushed on [chunks], counted, and the progress is printed. *)
Fixpoint on_data (name : string) (totalLength : option Z) (received : Z)
    (chunks : list (list Byte.byte)) (cs : list (list Byte.byte))
    : M (Z * list (list Byte.byte)) :=
  match cs with
  | [] => ret (received, chunks)
  | chunk :: cs' =>
      let chunks := chunks ++ [chunk] in
      let received := received + Z.of_nat (length chunk) in
      emit (Progress name received totalLength);;
      on_data name totalLength received chunks cs'
  end.

(** [getHTML(url, name)], given what the network answers for [url]. The
    promise resolves with [Buffer.concat(chunks)]. *)
Definition getHTML (url : option string) (name : string) (net : http_result)
    : M (list Byte.byte) :=
  let received := 0 in
  emit (HttpsGet url);;
  match net with
  | RequestError err => throw err
  | Response res =>
      let chunks := [] in
      let totalLength := content_length res in
      '(received, chunks) ← on_data name totalLength received chunks (Transfer.chunks res);
      match ending res with
      | BodyEnd =>
          emit (Downloaded name received);;
          ret (concat chunks)
      | BodyError err => throw err
      end
  end.

End Html.

(** * Vocabulary of the further properties *)

(** The chunks a trace writes to the write stream [ws], in order. *)
Definition writes_to (ws : string) (tr : list effect)
    : list (list Byte.byte) :=
  omap (λ e, match e with
             | WsWrite p chunk => if decide (p = ws) then Some chunk else None
             | _ => None
             end) tr.

(** The byte counts of the progress lines of a trace, in order. *)
Definition progress_of (tr : list effect) : list Z :=
  omap (λ e, match e with Progress _ received _ => Some received | _ => None end)
    tr.

(** The requests of a trace, in order. *)
Definition requests (tr : list effect) : list (option string) :=
  omap (λ e, match e with HttpsGet url => Some url | _ => None end) tr.

(** The number of bytes of a list of chunks. *)
Definition bytes (cs : list (list Byte.byte)) : Z :=
  Z.of_nat (length (concat cs)).

(** What the ['data'] events of [get] add to the trace. *)
Fixpoint data_trace (ws name : string) (totalLength : option Z)
    (received : Z) (cs : list (list Byte.byte)) : list effect :=
  match cs with
  | [] => []
  | x :: cs' =>
      WsWrite ws x
        :: Progress name (received + Z.of_nat (length x)) totalLength
        :: data_trace ws name totalLength (received + Z.of_nat (length x)) cs'
  end.

(** The calls of [reject] among the calls that settle the promise. *)
Definition rejects (ss : list Unzip.settle) : list js_error :=
  omap (λ s, match s with
             | Unzip.Reject err => Some err
             | Unzip.Resolve _ => None
             end) ss.

(** The calls of [reject] in a state of an extraction: none, or one that
    is the only call that settles the promise and comes with the end of
    the process. *)
Definition rejected_once (st : Unzip.state) : Prop :=
  rejects (Unzip.settled st.1) = []
  ∨ (Unzip.crashed st.2 = true
     ∧ ∃ err, Unzip.settled st.1 = [Unzip.Reject err]).

(** ** Further sample extractions *)

Module Sample2.

#[local] Existing Instance Sample.posix.

(** The archive of [Sample.archive], each entry handled to its end
    before the next one is requested. *)
Definition sequential : Unzip.state :=
  default (Unzip.start "ffmpeg/x.zip" "ffmpeg" true Sample.archive)
    (Unzip.run "ffmpeg/x.zip" "ffmpeg"
       (Unzip.EvOpened :: Unzip.schedule 0 Sample.archive)
       (Unzip.start "ffmpeg/x.zip" "ffmpeg" true Sample.archive)).

(** An archive that cannot be opened. *)
Definition unopened : Unzip.state :=
  default (Unzip.start "ffmpeg/x.zip" "ffmpeg" true Sample.archive)
    (Unzip.run "ffmpeg/x.zip" "ffmpeg" [Unzip.EvOpenFailed Sample.enoent]
       (Unzip.start "ffmpeg/x.zip" "ffmpeg" true Sample.archive)).

End Sample2.

(** * Properties *)

(** ** Strings *)

Section StringFacts.

Lemma append_cons (c : ascii) (a b : string) :
  String c a +:+ b = String c (a +:+ b).
Proof. reflexivity. Qed.

Lemma append_nil_l (a : string) : "" +:+ a = a.
Proof. reflexivity. Qed.

Lemma append_assoc (a b c : string) : (a +:+ b) +:+ c = a +:+ b +:+ c.
Proof.
  induction a as [|x a IH]; [done |]. by rewrite !append_cons, IH.
Qed.

Lemma length_append (a b : string) :
  String.length (a +:+ b) = (String.length a + String.length b)%nat.
Proof.
  induction a as [|x a IH]; [done |]. rewrite append_cons. simpl. lia.
Qed.

Lemma append_inj_r (a b c : string) : a +:+ c = b +:+ c → a = b.
Proof.
  intros Heq.
  assert (Hlen : String.length a = String.length b).
  { apply (f_equal String.length) in Heq.
    rewrite !length_append in Heq. lia. }
  revert b Heq Hlen.
  induction a as [|x a IH]; intros [|y b] Heq Hlen; simpl in *; try done.
  rewrite !append_cons in Heq.
  injection Heq as -> Heq. f_equal. apply IH; [done | lia].
Qed.

Lemma prefix_spec (t s : string) :
  String.prefix t s = true ↔ ∃ post, s = t +:+ post.
Proof.
  revert s. induction t as [|c t IH]; intros s.
  - destruct s; simpl; split; eauto.
  - destruct s as [|d s]; simpl.
    + split; [done | intros [post Hp]; discriminate].
    + destruct (Ascii.ascii_dec c d) as [->|Hne].
      * rewrite IH. split; intros [post Hp]; exists post;
          rewrite ?append_cons in *; congruence.
      * split; [done | intros [post Hp]; rewrite append_cons in Hp;
                       congruence].
Qed.

Lemma occurs_in_cons (t : string) (c : ascii) (s : string) :
  String.prefix t (String c s) = false →
  occurs_in t (String c s) ↔ occurs_in t s.
Proof.
  intros Hpre. split.
  - intros (pre & post & Heq). destruct pre as [|d pre].
    + rewrite append_nil_l in Heq.
      assert (String.prefix t (String c s) = true) as Ht
        by (apply prefix_spec; eauto). congruence.
    + rewrite append_cons in Heq. injection Heq as _ ->. by exists pre, post.
  - intros (pre & post & ->). by exists (String c pre), post.
Qed.

Lemma indexOf_from_unfold (i : Z) (s t : string) :
  indexOf_from i s t =
    if String.prefix t s then i
    else match s with
         | EmptyString => -1
         | String _ s' => indexOf_from (i + 1) s' t
         end.
Proof. by destruct s. Qed.

Lemma indexOf_from_range (i : Z) (s t : string) :
  indexOf_from i s t = -1 ∨ i ≤ indexOf_from i s t.
Proof.
  revert i.
  induction s as [|c s IH]; intros i; rewrite indexOf_from_unfold.
  - destruct (String.prefix t ""); lia.
  - destruct (String.prefix t (String c s)); [lia |].
    destruct (IH (i + 1)); lia.
Qed.

Lemma indexOf_from_found (i : Z) (s t : string) :
  0 ≤ i → 0 ≤ indexOf_from i s t ↔ occurs_in t s.
Proof.
  revert i.
  induction s as [|c s IH]; intros i Hi; rewrite indexOf_from_unfold.
  - destruct (String.prefix t "") eqn:Hpre.
    + split; [| lia]. intros _. apply prefix_spec in Hpre as [post Hp].
      exists "", post. by rewrite append_nil_l.
    + split; [lia |]. intros (pre & post & Heq).
      destruct pre; [| discriminate]. rewrite append_nil_l in Heq.
      assert (String.prefix t "" = true) by (apply prefix_spec; eauto).
      congruence.
  - destruct (String.prefix t (String c s)) eqn:Hpre.
    + split; [| lia]. intros _. apply prefix_spec in Hpre as [post Hp].
      exists "", post. by rewrite append_nil_l.
    + rewrite occurs_in_cons by done. apply IH. lia.
Qed.

(** [indexOf] finds exactly the substrings. *)
Lemma indexOf_found (s t : string) : 0 ≤ indexOf s t ↔ occurs_in t s.
Proof. by apply indexOf_from_found. Qed.

Lemma indexOf_neg (s t : string) :
  (indexOf s t <? 0) = true ↔ ¬ occurs_in t s.
Proof. rewrite <- indexOf_found, Z.ltb_lt. lia. Qed.

Lemma indexOf_minus_1 (s t : string) :
  (indexOf s t =? -1) = true ↔ ¬ occurs_in t s.
Proof.
  rewrite <- indexOf_found, Z.eqb_eq. unfold indexOf.
  destruct (indexOf_from_range 0 s t); lia.
Qed.

End StringFacts.

(** ** The library verifier *)

Section LinuxFacts.
Import Linux Dispatcher.

Lemma check_run (stdout lib : string) (result : Z) (tr : list effect) :
  check stdout lib result tr =
    if absent stdout lib then (Ret 1, tr ++ [not_installed lib])
    else (Ret result, tr).
Proof. unfold check, absent. by destruct (indexOf stdout lib <? 0). Qed.

Lemma checks_run {B} (stdout : string) (libs : list string) (result : Z)
    (k : Z → M B) (tr : list effect) :
  let missing := filter (λ lib, absent stdout lib = true) libs in
  checks stdout libs result k tr =
    k (if missing is [] then result else 1) (tr ++ (not_installed <$> missing)).
Proof.
  revert result tr. induction libs as [|lib libs IH]; intros result tr.
  - simpl. by rewrite app_nil_r.
  - change (checks stdout (lib :: libs) result k tr)
      with (match check stdout lib result tr with
            | (Ret a, tr') => checks stdout libs a k tr'
            | (Throw err, tr') => (Throw err, tr')
            | (Exit code, tr') => (Exit code, tr')
            | (Crash err, tr') => (Crash err, tr')
            end).
    rewrite check_run. simpl. rewrite filter_cons.
    destruct (absent stdout lib) eqn:Habs.
    + rewrite decide_True by done. rewrite IH. simpl.
      rewrite <- app_assoc. simpl.
      by destruct (filter _ libs).
    + rewrite decide_False by done. by rewrite IH.
Qed.

Lemma linux_run (listing : string) :
  let missing := filter (λ lib, absent listing lib = true) (required.*1) in
  linux (ExecOk listing) [] =
    if missing is [] then (Ret 0, header)
    else (Exit 1, header ++ (not_installed <$> missing) ++ [ConsoleLog remediation]).
Proof.
  intros missing.
  change (linux (ExecOk listing) [])
    with (checks listing (required.*1) 0
            (λ result, if result =? 1
                       then console_log remediation;; process_exit 1
                       else ret result) header).
  rewrite checks_run. fold missing.
  destruct missing; simpl.
  - done.
  - reflexivity.
Qed.

Lemma main_linux (h : host) :
  platform h = "linux" → arch h = "x64" ∨ arch h = "arm64" →
  main h = match linux (ldconfig h) [] with
           | (Ret _, tr) => (ExitStatus 0, tr)
           | (Exit code, tr) => (ExitStatus code, tr)
           | (Throw err, tr) => (UnhandledRejection err, tr)
           | (Crash err, tr) => (UncaughtException err, tr)
           end.
Proof.
  intros Hos Hcpu. unfold main, script, neq. rewrite Hos. simpl.
  assert (negb (arch h =? "x64")%string && negb (arch h =? "arm64")%string
          = false) as ->.
  { destruct Hcpu as [-> | ->]; reflexivity. }
  unfold run_branch.
  change ((linux (ldconfig h);; ret ()) [])
    with (match linux (ldconfig h) [] with
          | (Ret a, tr') => (Ret tt, tr')
          | (Throw err, tr') => (Throw err, tr')
          | (Exit code, tr') => (Exit code, tr')
          | (Crash err, tr') => (Crash err, tr')
          end).
  by destruct (linux (ldconfig h) []) as [[]].
Qed.

#[local] Instance not_installed_inj : Inj (=) (=) not_installed.
Proof.
  intros a b Heq. unfold not_installed in Heq.
  injection Heq as Heq. by apply append_inj_r in Heq.
Qed.

Lemma absent_spec (listing lib : string) :
  absent listing lib = true ↔ ¬ occurs_in lib listing.
Proof. apply indexOf_neg. Qed.

Lemma filter_only {A} (P : A → Prop) `{∀ x, Decision (P x)}
    (l : list A) (x : A) :
  NoDup l → x ∈ l → P x → (∀ y, y ∈ l → y ≠ x → ¬ P y) →
  filter P l = [x].
Proof.
  induction 1 as [|y l Hy Hnd IH]; intros Hx HP Hothers.
  - by apply elem_of_nil in Hx.
  - apply elem_of_cons in Hx as [<- | Hx].
    + rewrite filter_cons_True by done. f_equal.
      apply elem_of_nil_inv. intros z [HPz Hz]%list_elem_of_filter.
      apply (Hothers z); [by right | by intros -> | done].
    + rewrite filter_cons_False.
      * apply IH; [done | done |]. intros z Hz. apply Hothers. by right.
      * apply Hothers; [by left | by intros ->].
Qed.

(** C6. For every linker-cache listing, the Linux run prints the line
    "<library> is not installed." for a required library exactly when the
    name of the library does not occur in the listing; when the eight
    names all occur, the process ends with status 0 and has printed
    nothing but its opening line; when one is missing, the process exits
    with status 1. *)
Theorem linux_verifier_report (h : host) (listing : string) :
  platform h = "linux" → arch h = "x64" ∨ arch h = "arm64" →
  ldconfig h = ExecOk listing →
  (∀ lib, lib ∈ required.*1 →
     not_installed lib ∈ (main h).2 ↔ ¬ occurs_in lib listing)
  ∧ ((∀ lib, lib ∈ required.*1 → occurs_in lib listing) →
     main h = (ExitStatus 0, header))
  ∧ ((∃ lib, lib ∈ required.*1 ∧ ¬ occurs_in lib listing) →
     (main h).1 = ExitStatus 1).
Proof.
  intros Hos Hcpu Hld. rewrite (main_linux h Hos Hcpu), Hld.
  pose proof (linux_run listing) as Hrun. cbv zeta in Hrun.
  assert (Hmiss : ∀ lib,
            lib ∈ filter (λ lib, absent listing lib = true) (required.*1) ↔
            ¬ occurs_in lib listing ∧ lib ∈ required.*1).
  { intros lib. by rewrite list_elem_of_filter, absent_spec. }
  destruct (filter (λ lib, absent listing lib = true) (required.*1))
    as [|m rest]; rewrite Hrun; clear Hrun.
  - (* nothing is missing *)
    split; [| split].
    + intros lib Hlib. split.
      * intros Hin. cbn in Hin. unfold header in Hin.
        rewrite !elem_of_cons in Hin.
        destruct Hin as [? | [? | Hin]]; [done | done |].
        by apply elem_of_nil in Hin.
      * intros Hno. exfalso. by apply (elem_of_nil lib), Hmiss.
    + done.
    + intros (lib & Hreq & Hno). exfalso. by apply (elem_of_nil lib), Hmiss.
  - (* [m] is missing *)
    split; [| split].
    + intros lib Hlib. cbn [snd].
      rewrite !elem_of_app, list_elem_of_fmap_inj by apply _.
      rewrite Hmiss. unfold header. rewrite !elem_of_cons, elem_of_nil.
      unfold not_installed. split.
      * intros [[? | [? | []]] | [[? ?] | [? | []]]]; done.
      * intros Hno. right. by left.
    + intros Hall. exfalso. assert (m ∈ m :: rest) as Hin by left.
      apply Hmiss in Hin as [Hno Hreq]. by apply Hno, Hall.
    + done.
Qed.

Lemma linux_verifier_report_witness :
  let h := Sample.linux_host in
  let listing := Sample.listing_without_postproc in
  (∀ lib, lib ∈ required.*1 →
     not_installed lib ∈ (main h).2 ↔ ¬ occurs_in lib listing)
  ∧ ((∀ lib, lib ∈ required.*1 → occurs_in lib listing) →
     main h = (ExitStatus 0, header))
  ∧ ((∃ lib, lib ∈ required.*1 ∧ ¬ occurs_in lib listing) →
     (main h).1 = ExitStatus 1).
Proof.
  apply (linux_verifier_report Sample.linux_host
           Sample.listing_without_postproc);
    [reflexivity | left; reflexivity | reflexivity].
Defined.

Lemma required_NoDup : NoDup (required.*1).
Proof. apply (bool_decide_unpack _). by vm_compute. Qed.

(** C9, as the code has it. On Linux, when exactly one required library
    is absent from the listing, the process exits with status 1; it has
    printed its opening line, the one line "<library> is not installed."
    of that library, and then the remediation text, which is the same
    three lines whichever library is missing and whose last line names
    the packages of all eight libraries. *)
Theorem linux_one_library_absent (h : host) (listing lib : string) :
  platform h = "linux" → arch h = "x64" ∨ arch h = "arm64" →
  ldconfig h = ExecOk listing →
  lib ∈ required.*1 →
  ¬ occurs_in lib listing →
  (∀ lib', lib' ∈ required.*1 → lib' ≠ lib → occurs_in lib' listing) →
  main h = (ExitStatus 1,
            header ++ [not_installed lib; ConsoleLog remediation])
  ∧ printed_lines (main h).2 =
      ["Checking FFmpeg dependencies for Beam Coder on Linux.";
       lib +:+ " is not installed.";
       "Try running the following (Ubuntu/Debian):";
       "sudo add-apt-repository ppa:jonathonf/ffmpeg-4";
       "sudo apt-get install libavcodec-dev libavformat-dev libavdevice-dev libavfilter-dev libavutil-dev libpostproc-dev libswresample-dev libswscale-dev"].
Proof.
  intros Hos Hcpu Hld Hreq Hno Hothers.
  assert (Hmain : main h = (ExitStatus 1,
                    header ++ [not_installed lib; ConsoleLog remediation])).
  { rewrite (main_linux h Hos Hcpu), Hld.
    pose proof (linux_run listing) as Hrun. cbv zeta in Hrun.
    rewrite (filter_only _ _ lib) in Hrun.
    - by rewrite Hrun.
    - apply required_NoDup.
    - done.
    - by apply absent_spec.
    - intros lib' Hin Hne. rewrite absent_spec. intros Habs.
      by apply Habs, Hothers. }
  split; [done |]. rewrite Hmain. cbn [snd]. clear -Hreq.
  unfold required in Hreq. cbn in Hreq.
  rewrite !elem_of_cons, elem_of_nil in Hreq.
  destruct Hreq as [-> | [-> | [-> | [-> | [-> | [-> | [-> | [-> | []]]]]]]]];
    by vm_compute.
Qed.

Lemma linux_one_library_absent_witness :
  let h := Sample.linux_host in
  main h = (ExitStatus 1,
            header ++ [not_installed "libpostproc.so.56";
                       ConsoleLog remediation])
  ∧ printed_lines (main h).2 =
      ["Checking FFmpeg dependencies for Beam Coder on Linux.";
       "libpostproc.so.56" +:+ " is not installed.";
       "Try running the following (Ubuntu/Debian):";
       "sudo add-apt-repository ppa:jonathonf/ffmpeg-4";
       "sudo apt-get install libavcodec-dev libavformat-dev libavdevice-dev libavfilter-dev libavutil-dev libpostproc-dev libswresample-dev libswscale-dev"].
Proof.
  apply (linux_one_library_absent Sample.linux_host
           Sample.listing_without_postproc "libpostproc.so.56").
  - reflexivity.
  - left; reflexivity.
  - reflexivity.
  - apply (bool_decide_unpack _). by vm_compute.
  - rewrite <- indexOf_found. by vm_compute.
  - intros lib' Hin Hne. unfold required in Hin. cbn in Hin.
    rewrite !elem_of_cons, elem_of_nil in Hin.
    destruct Hin as [-> | [-> | [-> | [-> | [-> | [-> | [-> | [-> | []]]]]]]]];
      try done; apply indexOf_found; by vm_compute.
Defined.

(** C9, as the claim has it, fails. On a host where [libpostproc.so.56]
    alone is missing, the remediation text that is printed has three
    lines, not one; and its one line that names [libpostproc-dev] is not
    a line for that library: it names [libavcodec-dev] as well, the
    package of a library that is installed. *)
Lemma linux_remediation_is_fixed :
  let h := Sample.linux_host in
  let listing := Sample.listing_without_postproc in
  filter (λ lib, absent listing lib = true) (required.*1)
    = ["libpostproc.so.56"]
  ∧ (main h).1 = ExitStatus 1
  ∧ ConsoleLog remediation ∈ (main h).2
  ∧ length (lines remediation) = 3%nat
  ∧ absent listing "libavcodec.so.59" = false
  ∧ ∀ line, line ∈ printed_lines (main h).2 →
            names "libpostproc-dev" line = true →
            names "libavcodec-dev" line = true.
Proof.
  cbv zeta. split; [by vm_compute |]. split; [by vm_compute |].
  split.
  { assert (main Sample.linux_host
            = (ExitStatus 1,
               header ++ [not_installed "libpostproc.so.56";
                          ConsoleLog remediation])) as -> by (by vm_compute).
    cbn [snd]. rewrite elem_of_app, !elem_of_cons. tauto. }
  split; [by vm_compute |]. split; [by vm_compute |].
  assert (Hall : Forall (λ line, names "libpostproc-dev" line = true →
                                names "libavcodec-dev" line = true)
                   (printed_lines (main Sample.linux_host).2))
    by (apply (bool_decide_unpack _); by vm_compute).
  intros line Hin. by apply (proj1 (Forall_forall _ _) Hall).
Qed.

End LinuxFacts.

(** ** The package-manager bridge *)

Section DarwinFacts.
Import Darwin Dispatcher.

Lemma main_darwin (h : host) :
  platform h = "darwin" → arch h = "x64" ∨ arch h = "arm64" →
  main h = match darwin (brew_list h) (brew_install h) [] with
           | (Ret _, tr) => (ExitStatus 0, tr)
           | (Exit code, tr) => (ExitStatus code, tr)
           | (Throw err, tr) => (UnhandledRejection err, tr)
           | (Crash err, tr) => (UncaughtException err, tr)
           end.
Proof.
  intros Hos Hcpu. unfold main, script, neq. rewrite Hos. simpl.
  assert (negb (arch h =? "x64")%string && negb (arch h =? "arm64")%string
          = false) as ->.
  { destruct Hcpu as [-> | ->]; reflexivity. }
  unfold run_branch.
  change ((darwin (brew_list h) (brew_install h);; ret ()) [])
    with (match darwin (brew_list h) (brew_install h) [] with
          | (Ret a, tr') => (Ret tt, tr')
          | (Throw err, tr') => (Throw err, tr')
          | (Exit code, tr') => (Exit code, tr')
          | (Crash err, tr') => (Crash err, tr')
          end).
  by destruct (darwin (brew_list h) (brew_install h) []) as [[]].
Qed.

Lemma darwin_present (out : string) (install : exec_result) :
  darwin (ExecOk out) install [] =
    (Ret 0, [ConsoleLog "Checking for FFmpeg dependencies via HomeBrew.";
             Exec brew_list_command;
             ConsoleLog out;
             ConsoleLog "FFmpeg already present via Homebrew."]).
Proof. reflexivity. Qed.

Lemma darwin_query_failed (err : js_error) (install : exec_result) :
  darwin (ExecFail err) install [] =
    if no_signal err then (Exit 1, fatal_trace err)
    else match install with
         | ExecOk out =>
             (Ret 0, install_trace
                       ++ [ConsoleLog out;
                           ConsoleLog "FFmpeg installed via Homebrew."])
         | ExecFail err' =>
             (Exit 1, install_trace
                        ++ [ConsoleLog "Failed to install ffmpeg:
";
                            ConsoleErrorObj err'])
         end.
Proof.
  unfold no_signal.
  cbv beta iota zeta delta
    [darwin mbind M_bind bind catch await_exec throw emit console_log
     console_error_obj process_exit ret app].
  destruct (indexOf (err_stderr err) "Error: No such keg" =? -1);
    destruct (indexOf (err_stderr err) "ffmpeg@5" =? -1);
    destruct install; reflexivity.
Qed.

Lemma no_signal_spec (err : js_error) :
  no_signal err = true ↔
    ¬ occurs_in "Error: No such keg" (err_stderr err)
    ∧ ¬ occurs_in "ffmpeg@5" (err_stderr err).
Proof.
  unfold no_signal. by rewrite andb_true_iff, !indexOf_minus_1.
Qed.

Lemma install_not_in_fatal_trace (err : js_error) :
  Exec brew_install_command ∉ fatal_trace err.
Proof.
  unfold fatal_trace. rewrite !elem_of_cons, elem_of_nil.
  intros [? | [? | [? | [? | []]]]]; done.
Qed.

Lemma install_in_install_trace (rest : list effect) :
  Exec brew_install_command ∈ install_trace ++ rest.
Proof.
  apply elem_of_app. left. unfold install_trace.
  rewrite !elem_of_cons. tauto.
Qed.

(** C8. On macOS, when the query of the package fails and its error
    output carries the not-found signal, the installation is attempted:
    if it succeeds the process ends with status 0 and reports
    "FFmpeg installed via Homebrew.", if it fails the process exits with
    status 1. When the error output carries no such signal, the process
    exits with status 1 and no installation is attempted. *)
Theorem darwin_query_failure (h : host) (err : js_error) :
  platform h = "darwin" → arch h = "x64" ∨ arch h = "arm64" →
  brew_list h = ExecFail err →
  (not_found_signal err = true →
     Exec brew_install_command ∈ (main h).2
     ∧ (∀ out, brew_install h = ExecOk out →
          (main h).1 = ExitStatus 0
          ∧ ConsoleLog "FFmpeg installed via Homebrew." ∈ (main h).2)
     ∧ (∀ err', brew_install h = ExecFail err' →
          (main h).1 = ExitStatus 1 ∧ ConsoleErrorObj err' ∈ (main h).2))
  ∧ (not_found_signal err = false →
     (main h).1 = ExitStatus 1 ∧ Exec brew_install_command ∉ (main h).2).
Proof.
  intros Hos Hcpu Hlist. rewrite (main_darwin h Hos Hcpu), Hlist.
  rewrite darwin_query_failed. unfold not_found_signal.
  destruct (no_signal err); simpl negb; split; try done.
  - intros _. split; [done |]. apply install_not_in_fatal_trace.
  - intros _. split; [| split].
    + destruct (brew_install h); apply install_in_install_trace.
    + intros out ->. split; [done |]. cbn [snd].
      rewrite elem_of_app, !elem_of_cons. tauto.
    + intros err' ->. split; [done |]. cbn [snd].
      rewrite elem_of_app, !elem_of_cons. tauto.
Qed.

(** C10. On macOS a failed query is fatal (exit status 1 at once, no
    installation attempted) exactly when its error output contains
    neither "Error: No such keg" nor "ffmpeg@5"; the installation is
    attempted exactly when it contains one of the two. *)
Theorem darwin_fatal_iff_no_substring (h : host) (err : js_error) :
  platform h = "darwin" → arch h = "x64" ∨ arch h = "arm64" →
  brew_list h = ExecFail err →
  (main h = (ExitStatus 1, fatal_trace err) ↔
     ¬ occurs_in "Error: No such keg" (err_stderr err)
     ∧ ¬ occurs_in "ffmpeg@5" (err_stderr err))
  ∧ (Exec brew_install_command ∈ (main h).2 ↔
     occurs_in "Error: No such keg" (err_stderr err)
     ∨ occurs_in "ffmpeg@5" (err_stderr err)).
Proof.
  intros Hos Hcpu Hlist. rewrite (main_darwin h Hos Hcpu), Hlist.
  rewrite darwin_query_failed. rewrite <- no_signal_spec.
  assert (Hor : occurs_in "Error: No such keg" (err_stderr err)
                ∨ occurs_in "ffmpeg@5" (err_stderr err)
                ↔ no_signal err = false).
  { rewrite <- not_true_iff_false, no_signal_spec, <- !indexOf_found. lia. }
  rewrite Hor. destruct (no_signal err); split; split; try done.
  - intros Hin. by apply install_not_in_fatal_trace in Hin.
  - destruct (brew_install h); intros Heq; injection Heq; discriminate.
  - intros _. destruct (brew_install h); apply install_in_install_trace.
Qed.

Lemma darwin_query_failure_witness :
  let h := Sample.darwin_host in
  let err := Sample.no_such_keg in
  (not_found_signal err = true →
     Exec brew_install_command ∈ (main h).2
     ∧ (∀ out, brew_install h = ExecOk out →
          (main h).1 = ExitStatus 0
          ∧ ConsoleLog "FFmpeg installed via Homebrew." ∈ (main h).2)
     ∧ (∀ err', brew_install h = ExecFail err' →
          (main h).1 = ExitStatus 1 ∧ ConsoleErrorObj err' ∈ (main h).2))
  ∧ (not_found_signal err = false →
     (main h).1 = ExitStatus 1 ∧ Exec brew_install_command ∉ (main h).2).
Proof.
  apply (darwin_query_failure Sample.darwin_host Sample.no_such_keg);
    [reflexivity | right; reflexivity | reflexivity].
Defined.

Lemma darwin_fatal_iff_no_substring_witness :
  let h := Sample.darwin_host in
  let err := Sample.no_such_keg in
  (main h = (ExitStatus 1, fatal_trace err) ↔
     ¬ occurs_in "Error: No such keg" (err_stderr err)
     ∧ ¬ occurs_in "ffmpeg@5" (err_stderr err))
  ∧ (Exec brew_install_command ∈ (main h).2 ↔
     occurs_in "Error: No such keg" (err_stderr err)
     ∨ occurs_in "ffmpeg@5" (err_stderr err)).
Proof.
  apply (darwin_fatal_iff_no_substring Sample.darwin_host Sample.no_such_keg);
    [reflexivity | right; reflexivity | reflexivity].
Defined.

End DarwinFacts.

(** ** The transfer agent *)

Section TransferFacts.
Import Transfer.

Lemma bytes_cons (x : list byte) (cs : list (list byte)) :
  bytes (x :: cs) = Z.of_nat (length x) + bytes cs.
Proof. unfold bytes. cbn. rewrite length_app. lia. Qed.

Lemma on_data_exact (ws name : string) (total : option Z) (received : Z)
    (cs : list (list byte)) (tr : list effect) :
  on_data ws name total received cs tr
  = (Ret (received + bytes cs), tr ++ data_trace ws name total received cs).
Proof.
  revert received tr. induction cs as [|x cs IH]; intros received tr.
  - cbn. unfold bytes. cbn. by rewrite Z.add_0_r, app_nil_r.
  - cbn [on_data data_trace].
    cbv beta iota zeta delta [mbind M_bind bind emit].
    rewrite IH, bytes_cons, <- !app_assoc. cbn. f_equal. f_equal. lia.
Qed.

(** What [get] does with a response that is no 301 and no 302. *)
Lemma get_body (ws name : string) (url : option string) (res : response)
    (tr : list effect) :
  statusCode res ≠ 301 → statusCode res ≠ 302 →
  get ws url name (Response res) tr =
    match ending res with
    | BodyEnd =>
        (Ret tt,
         tr ++ (HttpsGet url
                  :: data_trace ws name (content_length res) 0 (chunks res))
            ++ [WsEnd ws; Downloaded name (bytes (chunks res))])
    | BodyError err =>
        (Throw err,
         tr ++ HttpsGet url
            :: data_trace ws name (content_length res) 0 (chunks res))
    end.
Proof.
  intros H301 H302. unfold get.
  cbv beta iota zeta delta [mbind M_bind bind emit].
  assert ((statusCode res =? 301) || (statusCode res =? 302) = false) as ->.
  { apply orb_false_iff. split; by apply Z.eqb_neq. }
  rewrite on_data_exact. destruct (ending res); [| by rewrite <- app_assoc].
  cbn. by rewrite <- !app_assoc.
Qed.

Lemma writes_to_data_trace (ws name : string) (total : option Z)
    (received : Z) (cs : list (list byte)) :
  writes_to ws (data_trace ws name total received cs) = cs.
Proof.
  revert received. induction cs as [|x cs IH]; intros received; [done |].
  cbn. rewrite decide_True by done. cbn. f_equal. apply IH.
Qed.

Lemma data_trace_no_end (ws name : string) (total : option Z)
    (received : Z) (cs : list (list byte)) (p : string) :
  WsEnd p ∉ data_trace ws name total received cs.
Proof.
  revert received. induction cs as [|x cs IH]; intros received.
  - apply not_elem_of_nil.
  - cbn. rewrite !not_elem_of_cons. split; [done |]. split; [done |]. apply IH.
Qed.

Lemma writes_to_app (ws : string) (a b : list effect) :
  writes_to ws (a ++ b) = writes_to ws a ++ writes_to ws b.
Proof. apply omap_app. Qed.

(** C1, as the code has it. A response whose status is 301 or 302 and
    which carries a Location header makes [get] fail with the
    RedirectError whose message is the value of that header, after the
    request alone: nothing is written to the sink. A response of any
    other status, the other 3xx codes included, is piped: every chunk of
    its body is written to the sink, and [get] succeeds when the body
    ends and fails with the error of the body otherwise. *)
Theorem get_redirect (ws name : string) (url : option string)
    (res : response) (tr : list effect) :
  (statusCode res = 301 ∨ statusCode res = 302 →
   ∀ loc, location res = Some loc →
     get ws url name (Response res) tr
     = (Throw (RedirectError (Some loc)), tr ++ [HttpsGet url]))
  ∧ (statusCode res ≠ 301 → statusCode res ≠ 302 →
     ∃ l, get ws url name (Response res) tr
          = (match ending res with
             | BodyEnd => Ret tt
             | BodyError err => Throw err
             end,
             tr ++ HttpsGet url :: l)
          ∧ writes_to ws l = chunks res).
Proof.
  split.
  - intros Hstatus loc Hloc. unfold get.
    cbv beta iota zeta delta [mbind M_bind bind emit].
    assert ((statusCode res =? 301) || (statusCode res =? 302) = true) as ->.
    { destruct Hstatus as [-> | ->]; reflexivity. }
    by rewrite Hloc.
  - intros H301 H302. rewrite get_body by done.
    destruct (ending res) as [|err].
    + eexists. split; [cbn; reflexivity |].
      by rewrite writes_to_app, writes_to_data_trace, app_nil_r.
    + eexists. split; [reflexivity |]. apply writes_to_data_trace.
Qed.

Lemma get_redirect_witness :
  let moved := mk_response 302 (Some "https://objects.example/x.zip")
                 None [] BodyEnd in
  let temporary := mk_response 307 (Some "https://objects.example/x.zip")
                     (Some 3) [["x"; "y"; "z"]%byte] BodyEnd in
  get "ffmpeg/x.zip" (Some Win32.url) "x.zip" (Response moved) []
  = (Throw (RedirectError (Some "https://objects.example/x.zip")),
     [] ++ [HttpsGet (Some Win32.url)])
  ∧ ∃ l, get "ffmpeg/x.zip" (Some Win32.url) "x.zip" (Response temporary) []
         = (Ret tt, [] ++ HttpsGet (Some Win32.url) :: l)
         ∧ writes_to "ffmpeg/x.zip" l = [["x"; "y"; "z"]%byte].
Proof.
  split.
  - apply (get_redirect "ffmpeg/x.zip" "x.zip" (Some Win32.url)
             (mk_response 302 (Some "https://objects.example/x.zip")
                None [] BodyEnd) []);
      [right; reflexivity | reflexivity].
  - apply (get_redirect "ffmpeg/x.zip" "x.zip" (Some Win32.url)
             (mk_response 307 (Some "https://objects.example/x.zip")
                (Some 3) [["x"; "y"; "z"]%byte] BodyEnd) []);
      done.
Defined.

(** C1, as the claim has it, fails: a 307 response with a Location header
    is a 3xx redirect, and [get] pipes its body into the sink and
    succeeds. *)
Lemma get_307_is_piped :
  let res := mk_response 307 (Some "https://objects.example/x.zip")
               (Some 3) [["x"; "y"; "z"]%byte] BodyEnd in
  300 ≤ statusCode res < 400
  ∧ location res = Some "https://objects.example/x.zip"
  ∧ get "ffmpeg/x.zip" (Some Win32.url) "x.zip" (Response res) []
    = (Ret tt,
       [HttpsGet (Some Win32.url);
        WsWrite "ffmpeg/x.zip" ["x"; "y"; "z"]%byte;
        Progress "x.zip" 3 (Some 3);
        WsEnd "ffmpeg/x.zip";
        Downloaded "x.zip" 3]).
Proof. split; [simpl; lia |]. split; reflexivity. Qed.

End TransferFacts.

(** ** The Windows branch *)

Section Win32Facts.
Import Transfer Win32.

Lemma on_data_run (ws name : string) (total : option Z) (received : Z)
    (cs : list (list byte)) (tr : list effect) :
  ∃ received' l,
    on_data ws name total received cs tr = (Ret received', tr ++ l)
    ∧ Forall is_transfer l.
Proof.
  revert received tr. induction cs as [|x cs IH]; intros received tr.
  - exists received, []. by rewrite app_nil_r.
  - destruct (IH (received + Z.of_nat (length x))
                ((tr ++ [WsWrite ws x])
                   ++ [Progress name (received + Z.of_nat (length x)) total]))
      as (r' & l & Hrun & Hl).
    exists r', (WsWrite ws x
                :: Progress name (received + Z.of_nat (length x)) total :: l).
    split.
    + cbn [on_data]. cbv beta iota zeta delta [mbind M_bind bind emit].
      rewrite Hrun. f_equal. by rewrite <- !app_assoc.
    + by repeat constructor.
Qed.

(** A failing transfer throws its error after effects of its own only. *)
Lemma get_fails (ws name : string) (url : option string) (net : http_result)
    (err : js_error) (tr : list effect) :
  transfer_fails net err →
  ∃ l, get ws url name net tr = (Throw err, tr ++ l) ∧ Forall is_transfer l.
Proof.
  intros [-> | (res & -> & H301 & H302 & Hend)].
  - exists [HttpsGet url]. split; [done | by repeat constructor].
  - destruct (on_data_run ws name (content_length res) 0 (chunks res)
                (tr ++ [HttpsGet url])) as (r' & l & Hrun & Hl).
    exists (HttpsGet url :: l). split; [| by constructor].
    unfold get. cbv beta iota zeta delta [mbind M_bind bind emit].
    assert ((statusCode res =? 301) || (statusCode res =? 302) = false) as ->.
    { apply orb_false_iff. split; by apply Z.eqb_neq. }
    rewrite Hrun, Hend. by rewrite <- app_assoc.
Qed.

(** A redirect makes [get] throw after the request alone. *)
Lemma get_redirected (ws name : string) (url : option string)
    (res : response) (tr : list effect) :
  statusCode res = 301 ∨ statusCode res = 302 →
  get ws url name (Response res) tr
    = (Throw (RedirectError (location res)), tr ++ [HttpsGet url]).
Proof.
  intros Hstatus. unfold get.
  cbv beta iota zeta delta [mbind M_bind bind emit].
  assert ((statusCode res =? 301) || (statusCode res =? 302) = true) as ->.
  { destruct Hstatus as [-> | ->]; reflexivity. }
  done.
Qed.

(** [win32] up to the transfer, when the directory is not yet there. *)
Lemma win32_absent (h : host) (e0 : js_error) :
  mkdir_passes (mkdir_ffmpeg h) → access_ffmpeg h = FsFail e0 →
  win32 h [] =
    match catch (get zip_path (Some url) zip_name (net_first h))
            (λ err,
               if decide (err_name err = "RedirectError") then
                 get zip_path (err_message err) zip_name
                   (net_second h (err_message err))
               else console_error_obj err) win32_prefix with
    | (Ret _, tr) => extract h tr
    | (Throw err, tr) => (Throw err, tr)
    | (Exit code, tr) => (Exit code, tr)
    | (Crash err, tr) => (Crash err, tr)
    end.
Proof.
  intros Hmk Hacc. unfold win32, download.
  cbv beta iota zeta delta [mbind M_bind bind emit console_log].
  assert (catch (λ tr, match (Ret (), tr ++ [FsMkdir "ffmpeg"]) with
                       | (Ret a, tr') => await_fs (mkdir_ffmpeg h) tr'
                       | (Throw err, tr') => (Throw err, tr')
                       | (Exit code, tr') => (Exit code, tr')
                       | (Crash err, tr') => (Crash err, tr')
                       end)
            (λ e, if decide (err_code e = Some "EEXIST") then ret ()
                  else throw e)
            ([] ++ [ConsoleLog "Checking/Installing FFmpeg dependencies for Beam Coder on Windows."])
          = (Ret (), [ConsoleLog "Checking/Installing FFmpeg dependencies for Beam Coder on Windows.";
                      FsMkdir "ffmpeg"])) as ->.
  { destruct Hmk as [-> | (e & -> & He)]; [done |].
    unfold catch. cbn. by rewrite decide_True. }
  unfold catch at 1. cbn iota. rewrite Hacc. cbn. reflexivity.
Qed.

(** X29. A transfer that follows a 301 or 302 and fails makes the branch
    fail with its error: the second [get] has no [catch]. Neither the
    npm install nor the extraction nor the rename is run. *)
Lemma win32_redirected_error_propagates (h : host) (err e0 : js_error)
    (res : response) :
  mkdir_passes (mkdir_ffmpeg h) → access_ffmpeg h = FsFail e0 →
  net_first h = Response res →
  statusCode res = 301 ∨ statusCode res = 302 →
  transfer_fails (net_second h (location res)) err →
  (win32 h []).1 = Throw err
  ∧ ∀ e, e ∈ (win32 h []).2 → ¬ is_extraction e.
Proof.
  intros Hmk Hacc Hfirst Hstatus Hfail. rewrite (win32_absent h e0 Hmk Hacc).
  unfold catch. rewrite Hfirst, (get_redirected _ _ _ _ _ Hstatus).
  cbn [err_name err_message RedirectError]. rewrite decide_True by done.
  destruct (get_fails zip_path zip_name (location res)
              (net_second h (location res)) err
              (win32_prefix ++ [HttpsGet (Some url)]) Hfail)
    as (l & Hget & Hl).
  rewrite Hget. split; [done |]. cbn [snd].
  intros e He. rewrite !elem_of_app in He.
  destruct He as [[He | He] | He].
  - unfold win32_prefix in He. rewrite !elem_of_cons, elem_of_nil in He.
    destruct He as [-> | [-> | [-> | [-> | []]]]]; cbn; tauto.
  - apply list_elem_of_singleton in He as ->. cbn. tauto.
  - rewrite Forall_forall in Hl. specialize (Hl e He).
    destruct e; cbn in *; tauto.
Qed.

(** C7, on a host without network. The first request dies with
    ECONNRESET, an error that is no redirect. The [catch] of lines 166 to
    171 prints it with [console.error] and returns, so the error does
    not propagate: the npm install is run and the Archive Extractor is
    started on the archive file, to which nothing was written. The
    extraction dies where [yauzl.open] cannot open it, before the
    rename. *)
Theorem win32_first_error_swallowed :
  transfer_fails (net_first Sample.offline) Sample.econnreset
  ∧ err_name Sample.econnreset ≠ "RedirectError"
  ∧ win32 Sample.offline [] =
      (Crash Sample.no_zipfile,
       win32_prefix
         ++ [HttpsGet (Some url);
             ConsoleErrorObj Sample.econnreset;
             Exec "npm install yauzl --no-save";
             Unzip zip_path "ffmpeg"])
  ∧ writes_to zip_path (win32 Sample.offline []).2 = []
  ∧ (Dispatcher.main
       (Sample.host "win32" "x64" (ExecOk "") (ExecOk "") (ExecOk ""))).1
    = Dispatcher.UncaughtException Sample.no_zipfile.
Proof. split; [by left |]. by repeat split. Qed.

End Win32Facts.

(** ** The platform dispatcher *)

Section DispatcherFacts.
Import Dispatcher.

(** X19. A supported pair reaches the platform function of its operating
    system, and nothing else. *)
Lemma supported_runs_branch (h : host) (b : branch) :
  supported (platform h) (arch h) = Some b → script h = run_branch b h.
Proof.
  unfold supported, script, neq.
  destruct (platform h =? "win32")%string.
  { destruct (arch h =? "x64")%string; [by intros [= <-] | done]. }
  destruct (platform h =? "linux")%string.
  { destruct (arch h =? "x64")%string, (arch h =? "arm64")%string;
      by intros [= <-]. }
  destruct (platform h =? "darwin")%string; [| done].
  destruct (arch h =? "x64")%string, (arch h =? "arm64")%string;
    by intros [= <-].
Qed.

(** X17. A known operating system on another architecture: the script
    prints one line and exits with status 1, and has touched neither the
    network nor the file system nor a child process. *)
Lemma unsupported_arch_exits_1 (h : host) :
  platform h = "win32" ∨ platform h = "linux" ∨ platform h = "darwin" →
  supported (platform h) (arch h) = None →
  main h = (ExitStatus 1,
            [ConsoleError "Only 64-bit platforms are supported."]).
Proof.
  unfold supported, main, script, neq.
  intros [-> | [-> | ->]]; cbn [String.eqb Ascii.eqb Bool.eqb];
    destruct (arch h =? "x64")%string; try done;
    destruct (arch h =? "arm64")%string; done.
Qed.

(** An operating system the script does not know: it prints one line and
    runs to its end, which leaves the exit status 0. *)
Lemma unrecognized_os_falls_through (h : host) :
  platform h ≠ "win32" → platform h ≠ "linux" → platform h ≠ "darwin" →
  main h = (ExitStatus 0,
            [ConsoleError ("Platfrom " +:+ platform h +:+ " is not supported.")]).
Proof.
  intros Hw Hl Hd. unfold main, script.
  apply String.eqb_neq in Hw, Hl, Hd. by rewrite Hw, Hl, Hd.
Qed.

(** X18. No pair outside the supported ones makes the script touch the
    network, the file system or a child process. *)
Lemma unsupported_no_side_effect (h : host) :
  supported (platform h) (arch h) = None → side_effects (main h).2 = [].
Proof.
  unfold supported, main, script, neq.
  destruct (platform h =? "win32")%string.
  { by destruct (arch h =? "x64")%string. }
  destruct (platform h =? "linux")%string.
  { by destruct (arch h =? "x64")%string, (arch h =? "arm64")%string. }
  destruct (platform h =? "darwin")%string; [| done].
  by destruct (arch h =? "x64")%string, (arch h =? "arm64")%string.
Qed.

(** C2, at an operating system the script does not know: on FreeBSD the
    process prints "Platfrom freebsd is not supported." and ends with
    exit status 0, where the unsupported architectures exit with 1. *)
Theorem unrecognized_os_exit_status :
  supported (platform Sample.freebsd_host) (arch Sample.freebsd_host) = None
  ∧ main Sample.freebsd_host =
      (ExitStatus 0, [ConsoleError "Platfrom freebsd is not supported."]).
Proof. split; reflexivity. Qed.

End DispatcherFacts.

(** ** The archive extractor *)

Section UnzipFacts.
Import Unzip UnzipSpec.
Context `{Path}.
Variables archiveName destFolder : string.

Lemma count_app (p : wstatus → bool) (a b : list wstream) :
  count p (a ++ b) = (count p a + count p b)%nat.
Proof. induction a as [|w a IH]; simpl; [done | rewrite IH; lia]. Qed.

Lemma count_set_status (p : wstatus → bool) (ws : list wstream) (i : nat)
    (w : wstream) (s : wstatus) :
  ws !! i = Some w →
  (count p (set_status i s ws) + (if p (w_status w) then 1 else 0)
   = count p ws + (if p s then 1 else 0))%nat.
Proof.
  revert i. induction ws as [|x ws IH]; intros [|i] Hi; try done.
  - injection Hi as ->. simpl. lia.
  - specialize (IH i Hi).
    change (set_status (S i) s (x :: ws)) with (x :: set_status i s ws).
    simpl. lia.
Qed.

Lemma count_zero (p : wstatus → bool) (ws : list wstream) :
  count p ws = 0%nat → ∀ w, w ∈ ws → p (w_status w) = false.
Proof.
  induction ws as [|x ws IH]; intros Hc w Hw.
  - by apply elem_of_nil in Hw.
  - simpl in Hc. apply elem_of_cons in Hw as [-> | Hw].
    + destruct (p (w_status x)); [lia | done].
    + apply IH; [lia | done].
Qed.

Lemma entries_set_status (i : nat) (s : wstatus) (ws : list wstream) :
  w_entry <$> set_status i s ws = w_entry <$> ws.
Proof.
  revert i. induction ws as [|x ws IH]; intros [|i]; try done.
  simpl. f_equal. apply IH.
Qed.

Lemma paths_set_status (i : nat) (s : wstatus) (ws : list wstream) :
  w_path <$> set_status i s ws = w_path <$> ws.
Proof.
  revert i. induction ws as [|x ws IH]; intros [|i]; try done.
  simpl. f_equal. apply IH.
Qed.

Lemma root_of_snoc (files : list string) (fileName : string) :
  root_of (files ++ [fileName]) =
    if (root_of files =? "")%string then split_slash_0 fileName
    else root_of files.
Proof.
  induction files as [|f files IH]; simpl.
  - by destruct (split_slash_0 fileName =? "")%string eqn:E;
      [apply String.eqb_eq in E |].
  - destruct (split_slash_0 f =? "")%string eqn:E; [done |]. by rewrite E.
Qed.

Lemma resolves_snoc (ss : list settle) (s : settle) :
  resolves (ss ++ [s]) =
    resolves ss ++ match s with Resolve root => [root] | Reject _ => [] end.
Proof. unfold resolves. rewrite omap_app. by destruct s. Qed.

Lemma created_snoc (tr : list effect) (e : effect) :
  created (tr ++ [e]) =
    created tr ++ match e with FsCreateWriteStream p => [p] | _ => [] end.
Proof. unfold created. rewrite omap_app. by destruct e. Qed.

Lemma start_invariant (dest_exists : bool) (entries : list string) :
  invariant destFolder entries (start archiveName destFolder dest_exists entries).
Proof.
  unfold start. split; cbn; try done.
  - by destruct dest_exists.
  - by destruct dest_exists.
  - by exists [].
  - by destruct dest_exists.
  - destruct dest_exists; by cbn.
Qed.

Lemma handles_decHandles (v : vars) :
  handles (decHandles archiveName v) = handles v - 1.
Proof. unfold decHandles. cbn. by destruct (handles v - 1 =? 0). Qed.

Lemma rootPath_decHandles (v : vars) :
  rootPath (decHandles archiveName v) = rootPath v.
Proof. unfold decHandles. cbn. by destruct (handles v - 1 =? 0). Qed.

Lemma created_decHandles (v : vars) :
  created (trace (decHandles archiveName v)) = created (trace v).
Proof.
  unfold decHandles. cbn. destruct (handles v - 1 =? 0); [| done]. cbn.
  by rewrite created_snoc, app_nil_r.
Qed.

Lemma resolves_decHandles (v : vars) :
  resolves (settled (decHandles archiveName v))
  = resolves (settled v) ++ if handles v - 1 =? 0 then [rootPath v] else [].
Proof.
  unfold decHandles. cbn. destruct (handles v - 1 =? 0); cbn.
  - by rewrite resolves_snoc.
  - by rewrite app_nil_r.
Qed.

#[local] Arguments resolves : simpl never.
#[local] Arguments created : simpl never.
#[local] Arguments root_of : simpl never.

Lemma step_invariant (entries : list string) (ev : event) (st st' : state) :
  invariant destFolder entries st →
  step archiveName destFolder ev st = Some st' →
  invariant destFolder entries st'.
Proof.
  destruct st as [[hd rp se tr] [z pe op ss cr]].
  intros [Hh Hr Ho He Hres (emitted & Hent & Hfil) Hroot Hpaths Hcreated].
  unfold readers, opening_list in *. cbn in *.
  destruct cr; [done |].
  assert (Hnone : 1 ≤ hd → resolves se = []).
  { intros Hpos. rewrite Hres. by destruct (hd =? 0) eqn:E; [lia |]. }
  destruct ev; cbn.
  - (* yauzl.open calls back with the zipfile *)
    destruct z; try done. intros [= <-]. split; cbn; try done.
    by exists emitted.
  - (* yauzl.open calls back with an error *)
    destruct z; try done. intros [= <-]. split; cbn; try done.
    + by rewrite resolves_snoc, app_nil_r.
    + by exists emitted.
  - (* 'entry' *)
    destruct z; try done. destruct pe as [|f rest]; try done.
    destruct op; [lia |].
    unfold on_entry. destruct (ends_with_slash f) eqn:Hdir;
      intros [= <-]; split; cbn; try done; try lia.
    + exists (emitted ++ [f]). rewrite <- app_assoc. split; [done |].
      rewrite filter_app, filter_cons_False
        by (unfold is_file; by rewrite Hdir).
      by rewrite filter_nil, app_nil_r.
    + exists (emitted ++ [f]). rewrite <- app_assoc. split; [done |].
      rewrite filter_app, filter_cons_True
        by (unfold is_file; by rewrite Hdir).
      by rewrite filter_nil, Hfil, app_nil_r.
  - (* 'end' *)
    destruct z; try done. destruct pe; try done. intros [= <-].
    split; cbn [fst snd];
      rewrite ?handles_decHandles, ?rootPath_decHandles,
        ?created_decHandles, ?resolves_decHandles; cbn; try done.
    + lia.
    + rewrite Hnone by lia. done.
    + by exists emitted.
  - (* openReadStream calls back with the stream *)
    destruct op as [f|]; try done. intros [= <-].
    assert (z = ZIdle) as -> by (destruct z; done || lia).
    split; cbn.
    + destruct (rp =? "")%string, dir_exists; cbn;
        rewrite count_app; cbn; lia.
    + rewrite count_app. cbn. lia.
    + done.
    + done.
    + assert ((hd + 1 =? 0) = false) as E by lia.
      assert ((hd =? 0) = false) as E0 by lia. rewrite E0 in Hres.
      destruct (rp =? "")%string, dir_exists; cbn; by rewrite E.
    + exists emitted. split; [done |].
      by rewrite Hfil, fmap_app, app_nil_r.
    + rewrite fmap_app. cbn. rewrite root_of_snoc, <- Hroot.
      by destruct (rp =? "")%string, dir_exists.
    + rewrite !fmap_app, Hpaths. done.
    + rewrite fmap_app, <- Hcreated.
      destruct (rp =? "")%string, dir_exists; cbn;
        rewrite ?created_snoc, ?app_nil_r; done.
  - (* openReadStream calls back with an error *)
    destruct op; try done. intros [= <-]. split; cbn; try done.
    + by rewrite resolves_snoc, app_nil_r.
    + by exists emitted.
  - (* the read stream ends *)
    destruct (ss !! i) as [[en pa []]|] eqn:Hi; try done. intros [= <-].
    pose proof (count_set_status is_piping ss i _ Ending Hi) as Hp.
    pose proof (count_set_status is_open ss i _ Ending Hi) as Hopen.
    cbn in Hp, Hopen.
    assert (z = ZIdle) as -> by (destruct z, op; done || lia).
    destruct op; [lia |].
    split; cbn; try done; try lia.
    + exists emitted. by rewrite entries_set_status.
    + by rewrite entries_set_status.
    + by rewrite paths_set_status, entries_set_status.
    + by rewrite paths_set_status.
  - (* a write stream closes *)
    destruct (ss !! i) as [[en pa []]|] eqn:Hi; try done. intros [= <-].
    pose proof (count_set_status is_piping ss i _ Closed Hi) as Hp.
    pose proof (count_set_status is_open ss i _ Closed Hi) as Hopen.
    cbn in Hp, Hopen.
    split; cbn [fst snd];
      rewrite ?handles_decHandles, ?rootPath_decHandles,
        ?created_decHandles, ?resolves_decHandles; cbn;
      rewrite ?entries_set_status, ?paths_set_status; try done.
    + destruct z; lia.
    + lia.
    + intros ->. specialize (Ho eq_refl). by subst ss.
    + rewrite Hnone by (destruct z; lia). done.
    + by exists emitted.
  - (* an 'error' event without a listener *)
    intros [= <-]. split; cbn; try done. by exists emitted.
Qed.

Lemma run_invariant (entries : list string) (evs : list event)
    (st st' : state) :
  invariant destFolder entries st →
  run archiveName destFolder evs st = Some st' →
  invariant destFolder entries st'.
Proof.
  revert st. induction evs as [|ev evs IH]; intros st Hinv; cbn.
  - by intros [= <-].
  - destruct (step archiveName destFolder ev st) as [st1|] eqn:Hstep; [| done].
    apply IH. by eapply step_invariant.
Qed.

Lemma reachable_invariant (dest_exists : bool) (entries : list string)
    (st : state) :
  reachable archiveName destFolder dest_exists entries st →
  invariant destFolder entries st.
Proof.
  intros [evs Hrun]. eapply run_invariant; [| done]. apply start_invariant.
Qed.

(** A state in which [resolve] has been called: the counter is at zero. *)
Lemma resolved_handles (entries : list string) (st : state) (root : string) :
  invariant destFolder entries st →
  Resolve root ∈ settled st.1 →
  handles st.1 = 0 ∧ root = rootPath st.1.
Proof.
  intros Hinv Hin.
  assert (root ∈ resolves (settled st.1)) as Hr.
  { unfold resolves. apply list_elem_of_omap. by exists (Resolve root). }
  rewrite (inv_resolves _ _ _ Hinv) in Hr.
  destruct (handles st.1 =? 0) eqn:E.
  - apply list_elem_of_singleton in Hr. split; [lia | done].
  - by apply elem_of_nil in Hr.
Qed.

(** A state in which [resolve] has been called: everything is over. *)
Lemma resolved_finished (entries : list string) (st : state) (root : string) :
  invariant destFolder entries st →
  Resolve root ∈ settled st.1 →
  zip st.2 = ZEnded
  ∧ pending st.2 = []
  ∧ opening st.2 = None
  ∧ ∀ w, w ∈ streams st.2 → w_status w = Closed.
Proof.
  intros Hinv Hin.
  destruct (resolved_handles _ _ _ Hinv Hin) as [Hzero _].
  pose proof (inv_handles _ _ _ Hinv) as Hh.
  pose proof (inv_readers _ _ _ Hinv) as Hr.
  rewrite Hzero in Hh.
  assert (zip st.2 = ZEnded) as Hz by (destruct (zip st.2); done || lia).
  rewrite Hz in Hh, Hr. unfold readers in Hr.
  split; [done |]. split; [by apply (inv_ended _ _ _ Hinv) |].
  split; [destruct (opening st.2); done || lia |].
  intros w Hw.
  assert (is_open (w_status w) = false) as Hc
    by (apply (count_zero is_open (streams st.2)); [lia | done]).
  by destruct (w_status w).
Qed.

(** C3. Whenever the extraction has called [resolve], the zipfile has
    emitted ['end'], no entry is left to enumerate, no read stream is
    awaited and every write stream it created has emitted ['close']. *)
Theorem unzip_resolves_after_close (dest_exists : bool)
    (entries : list string) (st : state) (root : string) :
  reachable archiveName destFolder dest_exists entries st →
  Resolve root ∈ settled st.1 →
  zip st.2 = ZEnded
  ∧ pending st.2 = []
  ∧ opening st.2 = None
  ∧ ∀ w, w ∈ streams st.2 → w_status w = Closed.
Proof.
  intros Hreach Hin. apply reachable_invariant in Hreach.
  by eapply resolved_finished.
Qed.

(** C4. In every state of an extraction the counter [handles] is at
    least zero and [resolve] has been called at most once. *)
Theorem unzip_ledger (dest_exists : bool) (entries : list string)
    (st : state) :
  reachable archiveName destFolder dest_exists entries st →
  0 ≤ handles st.1 ∧ (length (resolves (settled st.1)) ≤ 1)%nat.
Proof.
  intros Hinv%reachable_invariant. split.
  - rewrite (inv_handles _ _ _ Hinv). destruct (zip st.2); lia.
  - rewrite (inv_resolves _ _ _ Hinv).
    destruct (handles st.1 =? 0); cbn; lia.
Qed.




(** What an extraction has done when it calls [resolve], for any names
    of entries whatever. *)
Lemma unzip_result (dest_exists : bool) (entries : list string)
    (st : state) (root : string) :
  reachable archiveName destFolder dest_exists entries st →
  Resolve root ∈ settled st.1 →
  created (trace st.1)
    = path_join destFolder <$> filter (λ f, is_file f = true) entries
  ∧ root = root_of (filter (λ f, is_file f = true) entries).
Proof.
  intros Hinv%reachable_invariant Hin.
  destruct (resolved_finished _ _ _ Hinv Hin) as (_ & Hpend & Hop & _).
  destruct (resolved_handles _ _ _ Hinv Hin) as [_ ->].
  destruct (inv_progress _ _ _ Hinv) as (emitted & Hent & Hfil).
  unfold opening_list in Hfil. rewrite Hop, app_nil_r in Hfil.
  rewrite Hpend, app_nil_r in Hent. subst emitted. rewrite Hfil.
  split.
  - by rewrite (inv_created _ _ _ Hinv), (inv_paths _ _ _ Hinv).
  - apply (inv_root _ _ _ Hinv).
Qed.



End UnzipFacts.

Section UnzipWitnesses.
Import Unzip UnzipSpec.
#[local] Existing Instance Sample.posix.

Lemma extraction_reachable :
  reachable "ffmpeg/x.zip" "ffmpeg" true Sample.archive Sample.extraction.
Proof. exists Sample.pipelined. reflexivity. Defined.

Lemma extraction_resolved : Resolve "root" ∈ settled Sample.extraction.1.
Proof. apply elem_of_cons. by left. Defined.

Lemma unzip_resolves_after_close_witness :
  zip Sample.extraction.2 = ZEnded
  ∧ pending Sample.extraction.2 = []
  ∧ opening Sample.extraction.2 = None
  ∧ ∀ w, w ∈ streams Sample.extraction.2 → w_status w = Closed.
Proof.
  apply (unzip_resolves_after_close "ffmpeg/x.zip" "ffmpeg" true
           Sample.archive Sample.extraction "root").
  - apply extraction_reachable.
  - apply extraction_resolved.
Defined.

Lemma unzip_ledger_witness :
  0 ≤ handles Sample.extraction.1
  ∧ (length (resolves (settled Sample.extraction.1)) ≤ 1)%nat.
Proof.
  apply (unzip_ledger "ffmpeg/x.zip" "ffmpeg" true Sample.archive
           Sample.extraction).
  apply extraction_reachable.
Defined.


End UnzipWitnesses.

(** * Further properties *)

(** ** The transfer agent, on a response that is no redirect *)

Section TransferBody.
Import Transfer.

(** X1. On a response that is no 301 or 302 and whose body ends, [get]
    succeeds; it has written the chunks of the body to the sink, all of
    them and in order, before it ends the sink, and the length it reports
    is the number of bytes of the body. *)
Theorem get_streams_body (ws name : string) (url : option string)
    (res : response) (tr : list effect) :
  statusCode res ≠ 301 → statusCode res ≠ 302 → ending res = BodyEnd →
  ∃ l, get ws url name (Response res) tr
       = (Ret tt,
          tr ++ l ++ [WsEnd ws; Downloaded name (bytes (chunks res))])
       ∧ writes_to ws l = chunks res
       ∧ WsEnd ws ∉ l.
Proof.
  intros H301 H302 Hend. rewrite get_body, Hend by done.
  eexists. split; [reflexivity |]. split.
  - cbn. apply writes_to_data_trace.
  - rewrite not_elem_of_cons. split; [done | apply data_trace_no_end].
Qed.

Lemma get_streams_body_witness :
  let res := mk_response 200 None (Some 3) [["x"; "y"]%byte; ["z"]%byte] BodyEnd in
  ∃ l, get "ffmpeg/x.zip" (Some Win32.url) "x.zip" (Response res) []
       = (Ret tt,
          [] ++ l ++ [WsEnd "ffmpeg/x.zip"; Downloaded "x.zip" (bytes (chunks res))])
       ∧ writes_to "ffmpeg/x.zip" l = chunks res
       ∧ WsEnd "ffmpeg/x.zip" ∉ l.
Proof.
  apply (get_streams_body "ffmpeg/x.zip" "x.zip" (Some Win32.url)
           (mk_response 200 None (Some 3) [["x"; "y"]%byte; ["z"]%byte] BodyEnd)
           []); [done | done | reflexivity].
Defined.

(** X2. When the body of a response that is no 301 or 302 fails, [get]
    fails with the error of the body; the chunks that came before are in
    the sink, and the sink is not ended. *)
Theorem get_body_error (ws name : string) (url : option string)
    (res : response) (err : js_error) (tr : list effect) :
  statusCode res ≠ 301 → statusCode res ≠ 302 →
  ending res = BodyError err →
  ∃ l, get ws url name (Response res) tr = (Throw err, tr ++ l)
       ∧ writes_to ws l = chunks res
       ∧ WsEnd ws ∉ l.
Proof.
  intros H301 H302 Hend. rewrite get_body, Hend by done.
  eexists. split; [reflexivity |]. split.
  - cbn. apply writes_to_data_trace.
  - rewrite not_elem_of_cons. split; [done | apply data_trace_no_end].
Qed.

Lemma get_body_error_witness :
  let res := mk_response 200 None (Some 9) [["x"; "y"]%byte]
               (BodyError Sample.econnreset) in
  ∃ l, get "ffmpeg/x.zip" (Some Win32.url) "x.zip" (Response res) []
       = (Throw Sample.econnreset, [] ++ l)
       ∧ writes_to "ffmpeg/x.zip" l = chunks res
       ∧ WsEnd "ffmpeg/x.zip" ∉ l.
Proof.
  apply (get_body_error "ffmpeg/x.zip" "x.zip" (Some Win32.url)
           (mk_response 200 None (Some 9) [["x"; "y"]%byte]
              (BodyError Sample.econnreset))
           Sample.econnreset []); [done | done | reflexivity].
Defined.

End TransferBody.

(** ** The progress and the effects of [get] *)

Section TransferShape.
Import Transfer.

Lemma progress_of_data_trace_ge (ws name : string) (total : option Z)
    (received : Z) (cs : list (list byte)) :
  Forall (Z.le received)
    (progress_of (data_trace ws name total received cs)).
Proof.
  revert received. induction cs as [|x cs IH]; intros received; [constructor |].
  cbn. constructor; [lia |].
  eapply Forall_impl; [apply IH |]. cbn. lia.
Qed.

Lemma progress_of_data_trace_sorted (ws name : string) (total : option Z)
    (received : Z) (cs : list (list byte)) :
  StronglySorted Z.le
    (received :: progress_of (data_trace ws name total received cs)).
Proof.
  revert received. induction cs as [|x cs IH]; intros received.
  - repeat constructor.
  - constructor; [| apply (progress_of_data_trace_ge ws name total received (x :: cs))].
    apply IH.
Qed.

Lemma progress_of_snoc (tr : list effect) (e : effect) :
  progress_of (tr ++ [e])
  = progress_of tr ++ match e with Progress _ r _ => [r] | _ => [] end.
Proof. unfold progress_of. rewrite omap_app. by destruct e. Qed.

(** X3. The byte counts of the progress lines of a call of [get] never
    decrease, and none of them is negative. *)
Theorem get_progress_monotone (ws name : string) (url : option string)
    (net : http_result) :
  StronglySorted Z.le (0 :: progress_of (get ws url name net []).2).
Proof.
  destruct net as [err | res]; [repeat constructor |].
  destruct (decide (statusCode res = 301 ∨ statusCode res = 302)) as [Hr | Hn].
  - rewrite (get_redirected _ _ _ _ _ Hr). repeat constructor.
  - rewrite get_body by tauto.
    pose proof (progress_of_data_trace_sorted ws name (content_length res) 0
                  (chunks res)) as Hs.
    destruct (ending res); cbn [snd]; [| exact Hs].
    cbn. unfold progress_of in *. rewrite omap_app. cbn.
    by rewrite app_nil_r.
Qed.

(** The shape of every call of [get]: the request first, then effects of
    the transfer on [ws] alone, and an end that is no [process.exit]. *)
Lemma get_shape (ws name : string) (url : option string) (net : http_result)
    (tr : list effect) :
  ∃ o l, get ws url name net tr = (o, tr ++ HttpsGet url :: l)
         ∧ requests l = []
         ∧ Forall is_transfer l
         ∧ (∀ p chunk, WsWrite p chunk ∈ l → p = ws)
         ∧ (∀ p, WsEnd p ∈ l → p = ws)
         ∧ ∀ code, o ≠ Exit code.
Proof.
  assert (Hdata : ∀ total r cs,
            requests (data_trace ws name total r cs) = []
            ∧ Forall is_transfer (data_trace ws name total r cs)
            ∧ (∀ p chunk, WsWrite p chunk ∈ data_trace ws name total r cs →
                          p = ws)).
  { intros total r cs. revert r. induction cs as [|x cs IH]; intros r.
    - split; [done |]. split; [constructor |]. by intros p c ?%elem_of_nil.
    - destruct (IH (r + Z.of_nat (length x))) as (IH1 & IH2 & IH3).
      split; [done |]. split; [by repeat constructor |].
      intros p c. cbn. rewrite !elem_of_cons.
      intros [[= -> ->] | [? | Hin]]; [done | done | by eapply IH3]. }
  destruct net as [err | res].
  - exists (Throw err), []. by repeat split; try (by intros ? ? ?%elem_of_nil);
      try (by intros ? ?%elem_of_nil).
  - destruct (decide (statusCode res = 301 ∨ statusCode res = 302)) as [Hr | Hn].
    + rewrite (get_redirected _ _ _ _ _ Hr).
      exists (Throw (RedirectError (location res))), [].
      by repeat split; try (by intros ? ? ?%elem_of_nil);
        try (by intros ? ?%elem_of_nil).
    + rewrite get_body by tauto.
      destruct (Hdata (content_length res) 0 (chunks res)) as (H1 & H2 & H3).
      destruct (ending res).
      * eexists (Ret tt), _. split; [cbn; reflexivity |].
        split; [| split; [| split; [| split]]].
        -- unfold requests in *. rewrite omap_app, H1. done.
        -- apply Forall_app. split; [done | by repeat constructor].
        -- intros p c. rewrite elem_of_app, !elem_of_cons, elem_of_nil.
           intros [Hin | [? | [? | []]]]; [by eapply H3 | done | done].
        -- intros p. rewrite elem_of_app, !elem_of_cons, elem_of_nil.
           intros [Hin | [[= ->] | [? | []]]]; [| done | done].
           by apply data_trace_no_end in Hin.
        -- done.
      * eexists (Throw err), _. split; [done |].
        split; [done |]. split; [done |]. split; [done |].
        split; [| done]. intros p Hin. by apply data_trace_no_end in Hin.
Qed.


(** X4. Every call of [get] makes one request, before anything else; it
    writes to no sink but its own, touches neither the file system nor a
    child process, and never ends the process. *)
Theorem get_single_request (ws name : string) (url : option string)
    (net : http_result) (tr : list effect) :
  ∃ l, (get ws url name net tr).2 = tr ++ HttpsGet url :: l
       ∧ requests l = []
       ∧ Forall is_transfer l
       ∧ (∀ p chunk, WsWrite p chunk ∈ l → p = ws)
       ∧ ∀ code, (get ws url name net tr).1 ≠ Exit code.
Proof.
  destruct (get_shape ws name url net tr) as (o & l & -> & H1 & H2 & H3 & _ & H5).
  by exists l.
Qed.

End TransferShape.

(** ** The page fetcher *)

Section HtmlFacts.
Import Transfer Html.

Lemma html_on_data_exact (name : string) (total : option Z) (received : Z)
    (acc cs : list (list byte)) (tr : list effect) :
  ∃ l, Html.on_data name total received acc cs tr
       = (Ret (received + bytes cs, acc ++ cs), tr ++ l)
       ∧ Forall (λ e, ∃ r, e = Progress name r total) l.
Proof.
  revert received acc tr. induction cs as [|x cs IH]; intros received acc tr.
  - exists []. cbn. unfold bytes. cbn. by rewrite Z.add_0_r, !app_nil_r.
  - destruct (IH (received + Z.of_nat (length x)) (acc ++ [x])
                (tr ++ [Progress name (received + Z.of_nat (length x)) total]))
      as (l & Hrun & Hall).
    exists (Progress name (received + Z.of_nat (length x)) total :: l).
    split.
    + cbn [Html.on_data]. cbv beta iota zeta delta [mbind M_bind bind emit].
      rewrite Hrun, bytes_cons, <- !app_assoc. cbn. do 3 f_equal. lia.
    + constructor; [by eexists | done].
Qed.

(** X5. Whatever the status of the response, a 301 or a 302 included,
    [getHTML] makes one request and, when the body ends, resolves with
    the concatenation of its chunks and reports its number of bytes;
    between the request and the report it only prints progress. *)
Theorem getHTML_returns_body (name : string) (url : option string)
    (res : response) (tr : list effect) :
  ending res = BodyEnd →
  ∃ l, getHTML url name (Response res) tr
       = (Ret (concat (chunks res)),
          tr ++ HttpsGet url :: l ++ [Downloaded name (bytes (chunks res))])
       ∧ Forall (λ e, ∃ r, e = Progress name r (content_length res)) l.
Proof.
  intros Hend. unfold getHTML.
  cbv beta iota zeta delta [mbind M_bind bind emit].
  destruct (html_on_data_exact name (content_length res) 0 [] (chunks res)
              (tr ++ [HttpsGet url])) as (l & Hrun & Hall).
  rewrite Hrun, Hend. exists l. split; [| done].
  cbn. by rewrite <- !app_assoc.
Qed.

Lemma getHTML_returns_body_witness :
  let res := mk_response 302 (Some "https://objects.example/")
               None [["<"; "a"; ">"]%byte] BodyEnd in
  ∃ l, getHTML (Some Win32.url) "page" (Response res) []
       = (Ret (concat (chunks res)),
          [] ++ HttpsGet (Some Win32.url)
             :: l ++ [Downloaded "page" (bytes (chunks res))])
       ∧ Forall (λ e, ∃ r, e = Progress "page" r (content_length res)) l.
Proof.
  apply (getHTML_returns_body "page" (Some Win32.url)
           (mk_response 302 (Some "https://objects.example/")
              None [["<"; "a"; ">"]%byte] BodyEnd) []).
  reflexivity.
Defined.

(** X6. [getHTML] fails exactly as the network does: with the error of
    the request, or with the error of the body, and then nothing of the
    body is returned. *)
Theorem getHTML_fails (name : string) (url : option string)
    (net : http_result) (err : js_error) (tr : list effect) :
  net = RequestError err
  ∨ (∃ res, net = Response res ∧ ending res = BodyError err) →
  (getHTML url name net tr).1 = Throw err.
Proof.
  intros [-> | (res & -> & Hend)]; [done |]. unfold getHTML.
  cbv beta iota zeta delta [mbind M_bind bind emit].
  destruct (html_on_data_exact name (content_length res) 0 [] (chunks res)
              (tr ++ [HttpsGet url])) as (l & Hrun & _).
  by rewrite Hrun, Hend.
Qed.

Lemma getHTML_fails_witness :
  (getHTML (Some Win32.url) "page" (RequestError Sample.econnreset) []).1
  = Throw Sample.econnreset.
Proof.
  apply (getHTML_fails "page" (Some Win32.url)
           (RequestError Sample.econnreset) Sample.econnreset []).
  by left.
Defined.

End HtmlFacts.

(** ** The Windows branch, path by path *)

Section Win32Paths.
Import Transfer Win32.

Lemma requests_app (a b : list effect) :
  requests (a ++ b) = requests a ++ requests b.
Proof. apply omap_app. Qed.

Lemma mkdir_cases (r : fs_result) :
  mkdir_passes r ∨ ∃ e, r = FsFail e ∧ err_code e ≠ Some "EEXIST".
Proof.
  destruct r as [|e]; [left; by left |].
  destruct (decide (err_code e = Some "EEXIST")).
  - left. right. by exists e.
  - right. by exists e.
Qed.

Lemma win32_run_mkdir_fails (h : host) (e : js_error) :
  mkdir_ffmpeg h = FsFail e → err_code e ≠ Some "EEXIST" →
  win32 h [] =
    (Throw e,
     [ConsoleLog "Checking/Installing FFmpeg dependencies for Beam Coder on Windows.";
      FsMkdir "ffmpeg"]).
Proof.
  intros Hmk Hne. unfold win32.
  cbv beta iota zeta delta [mbind M_bind bind emit console_log catch].
  rewrite Hmk. cbn. by rewrite decide_False.
Qed.

Lemma win32_run_present (h : host) :
  mkdir_passes (mkdir_ffmpeg h) → access_ffmpeg h = FsOk →
  win32 h [] =
    (Ret tt,
     [ConsoleLog "Checking/Installing FFmpeg dependencies for Beam Coder on Windows.";
      FsMkdir "ffmpeg";
      FsAccess ("ffmpeg/" +:+ ffmpegFilename)]).
Proof.
  intros Hmk Hacc. unfold win32.
  cbv beta iota zeta delta [mbind M_bind bind emit console_log catch].
  rewrite Hacc.
  destruct Hmk as [-> | (e & -> & He)]; cbn; [done |].
  by rewrite decide_True.
Qed.

Lemma extract_shape (h : host) (tr : list effect) :
  ∃ o l, extract h tr = (o, tr ++ l)
         ∧ requests l = []
         ∧ Forall is_extraction l
         ∧ ∀ code, o ≠ Exit code.
Proof.
  unfold extract, await_unzip.
  cbv beta iota zeta delta [mbind M_bind bind emit].
  destruct (npm_install h); cbn.
  2: { eexists _, [_]. split; [done |]. by repeat constructor. }
  destruct (unzip_result h); cbn.
  { eexists _, [_; _]. rewrite <- app_assoc. split; [done |].
    by repeat constructor. }
  destruct (rename_result h); cbn;
    eexists _, [_; _; _]; rewrite <- !app_assoc; (split; [done |]);
    by repeat constructor.
Qed.


Lemma requests_get (url : option string) (l : list effect) :
  requests (HttpsGet url :: l) = url :: requests l.
Proof. reflexivity. Qed.

Lemma requests_data_trace (ws name : string) (total : option Z)
    (received : Z) (cs : list (list byte)) :
  requests (data_trace ws name total received cs) = [].
Proof.
  revert received. induction cs as [|x cs IH]; intros received; [done |].
  apply IH.
Qed.

Lemma requests_prefix : requests win32_prefix = [].
Proof. reflexivity. Qed.

(** Every run of [win32]: it never ends the process, and it makes at most
    two requests, the first of them for the pinned address. *)
Lemma win32_shape (h : host) :
  (∀ code, (win32 h []).1 ≠ Exit code)
  ∧ (requests (win32 h []).2 = []
     ∨ ∃ more, requests (win32 h []).2 = Some url :: more
               ∧ (length more ≤ 1)%nat).
Proof.
  destruct (mkdir_cases (mkdir_ffmpeg h)) as [Hmk | (e & Hmk & He)].
  2: { rewrite (win32_run_mkdir_fails h e Hmk He). split; [done | by left]. }
  destruct (access_ffmpeg h) as [|e0] eqn:Hacc.
  { rewrite (win32_run_present h Hmk Hacc). split; [done | by left]. }
  rewrite (win32_absent h e0 Hmk Hacc). unfold catch.
  destruct (get_shape zip_path zip_name (Some url) (net_first h) win32_prefix)
    as (o1 & l1 & Hget1 & Hreq1 & _ & _ & _ & Hexit1).
  rewrite Hget1.
  assert (Hafter : ∀ tr, (∀ code, (extract h tr).1 ≠ Exit code)
                         ∧ requests (extract h tr).2 = requests tr).
  { intros tr. destruct (extract_shape h tr) as (o & l & -> & Hr & _ & Hx).
    split; [done |]. cbn [snd]. by rewrite requests_app, Hr, app_nil_r. }
  assert (Hone : requests (win32_prefix ++ HttpsGet (Some url) :: l1)
                 = [Some url]).
  { by rewrite requests_app, requests_prefix, requests_get, Hreq1. }
  destruct o1 as [[] | err | code | cerr].
  - destruct (Hafter (win32_prefix ++ HttpsGet (Some url) :: l1)) as [Hx Hr].
    split; [done |]. right. exists []. rewrite Hr, Hone. split; [done | cbn; lia].
  - destruct (decide (err_name err = "RedirectError")) as [Hname | Hname].
    + destruct (get_shape zip_path zip_name (err_message err)
                  (net_second h (err_message err))
                  (win32_prefix ++ HttpsGet (Some url) :: l1))
        as (o2 & l2 & Hget2 & Hreq2 & _ & _ & _ & Hexit2).
      rewrite Hget2.
      assert (Htwo : requests ((win32_prefix ++ HttpsGet (Some url) :: l1)
                                 ++ HttpsGet (err_message err) :: l2)
                     = [Some url; err_message err]).
      { by rewrite requests_app, Hone, requests_get, Hreq2. }
      destruct o2 as [[] | err2 | code | cerr].
      * destruct (Hafter ((win32_prefix ++ HttpsGet (Some url) :: l1)
                            ++ HttpsGet (err_message err) :: l2)) as [Hx Hr].
        split; [done |]. right. exists [err_message err].
        rewrite Hr, Htwo. split; [done | cbn; lia].
      * split; [done |]. right. exists [err_message err].
        cbn [snd]. rewrite Htwo. split; [done | cbn; lia].
      * by destruct (Hexit2 code).
      * split; [done |]. right. exists [err_message err].
        cbn [snd]. rewrite Htwo. split; [done | cbn; lia].
    + cbv beta iota zeta delta [console_error_obj emit].
      destruct (Hafter ((win32_prefix ++ HttpsGet (Some url) :: l1)
                          ++ [ConsoleErrorObj err])) as [Hx Hr].
      split; [done |]. right. exists [].
      rewrite Hr, requests_app, Hone. split; [done | cbn; lia].
  - by destruct (Hexit1 code).
  - split; [done |]. right. exists [].
    cbn [snd]. rewrite Hone. split; [done | cbn; lia].
Qed.


(** X7. On Windows, when [ffmpeg/ffmpeg-5.x-win64-shared] can be read,
    the branch is done after the check: no request, no child process, no
    extraction and no rename. *)
Theorem win32_already_present (h : host) :
  mkdir_passes (mkdir_ffmpeg h) → access_ffmpeg h = FsOk →
  win32 h [] =
    (Ret tt,
     [ConsoleLog "Checking/Installing FFmpeg dependencies for Beam Coder on Windows.";
      FsMkdir "ffmpeg";
      FsAccess ("ffmpeg/" +:+ ffmpegFilename)]).
Proof. apply win32_run_present. Qed.

Lemma win32_already_present_witness :
  let h := mk_host FsOk FsOk (RequestError Sample.econnreset)
             (λ _, RequestError Sample.econnreset)
             (ExecOk "") (inr "root") FsOk in
  win32 h [] =
    (Ret tt,
     [ConsoleLog "Checking/Installing FFmpeg dependencies for Beam Coder on Windows.";
      FsMkdir "ffmpeg";
      FsAccess ("ffmpeg/" +:+ ffmpegFilename)]).
Proof.
  apply (win32_already_present
           (mk_host FsOk FsOk (RequestError Sample.econnreset)
              (λ _, RequestError Sample.econnreset)
              (ExecOk "") (inr "root") FsOk));
    [by left | reflexivity].
Defined.

(** X8. On Windows the branch never ends the process and makes at most
    two requests, the first of them for the pinned address of the
    archive. *)
Theorem win32_at_most_two_requests (h : host) :
  (∀ code, (win32 h []).1 ≠ Exit code)
  ∧ (requests (win32 h []).2 = []
     ∨ ∃ more, requests (win32 h []).2 = Some url :: more
               ∧ (length more ≤ 1)%nat).
Proof. apply win32_shape. Qed.

(** X9. On Windows a redirect is followed once: when the answer to the
    request that follows a 301 or 302 is again a 301 or 302, the branch
    fails with the RedirectError of that second answer, after two
    requests, and runs neither the npm install nor the extraction nor
    the rename. *)
Theorem win32_second_redirect (h : host) (e0 : js_error)
    (res1 res2 : response) :
  mkdir_passes (mkdir_ffmpeg h) → access_ffmpeg h = FsFail e0 →
  net_first h = Response res1 →
  statusCode res1 = 301 ∨ statusCode res1 = 302 →
  net_second h (location res1) = Response res2 →
  statusCode res2 = 301 ∨ statusCode res2 = 302 →
  win32 h [] =
    (Throw (RedirectError (location res2)),
     win32_prefix ++ [HttpsGet (Some url); HttpsGet (location res1)]).
Proof.
  intros Hmk Hacc Hn1 Hs1 Hn2 Hs2. rewrite (win32_absent h e0 Hmk Hacc).
  unfold catch. rewrite Hn1, (get_redirected _ _ _ _ _ Hs1).
  cbn [err_name err_message RedirectError]. rewrite decide_True by done.
  rewrite Hn2, (get_redirected _ _ _ _ _ Hs2). by rewrite <- app_assoc.
Qed.

Lemma win32_second_redirect_witness :
  let r1 := mk_response 302 (Some "https://a.example/x.zip") None [] BodyEnd in
  let r2 := mk_response 301 (Some "https://b.example/x.zip") None [] BodyEnd in
  win32 (Sample.windows (Response r1) (Response r2)) [] =
    (Throw (RedirectError (location r2)),
     win32_prefix ++ [HttpsGet (Some url); HttpsGet (location r1)]).
Proof.
  apply (win32_second_redirect
           (Sample.windows
              (Response (mk_response 302 (Some "https://a.example/x.zip")
                           None [] BodyEnd))
              (Response (mk_response 301 (Some "https://b.example/x.zip")
                           None [] BodyEnd)))
           Sample.enoent
           (mk_response 302 (Some "https://a.example/x.zip") None [] BodyEnd)
           (mk_response 301 (Some "https://b.example/x.zip") None [] BodyEnd));
    [by left | reflexivity | reflexivity | by right | reflexivity | by left].
Defined.

Lemma win32_redirected_error_propagates_witness :
  let moved := mk_response 302 (Some "https://a.example/x.zip") None []
                 BodyEnd in
  let h := Sample.windows (Response moved) (RequestError Sample.econnreset) in
  (win32 h []).1 = Throw Sample.econnreset
  ∧ ∀ e, e ∈ (win32 h []).2 → ¬ is_extraction e.
Proof.
  apply (win32_redirected_error_propagates
           (Sample.windows
              (Response (mk_response 302 (Some "https://a.example/x.zip")
                           None [] BodyEnd))
              (RequestError Sample.econnreset))
           Sample.econnreset Sample.enoent
           (mk_response 302 (Some "https://a.example/x.zip") None [] BodyEnd));
    [by left | reflexivity | reflexivity | by right | by left].
Defined.

(** X10. On Windows, when the first answer is a 301 or 302 and the body
    of the second answer ends, and the npm install, the extraction and
    the rename succeed: the branch succeeds; it has requested the pinned
    address and then the Location of the redirect, it has written the
    body of the second answer to the archive file, and its last act is
    the rename of the root the extraction reported to
    [ffmpeg/ffmpeg-5.x-win64-shared]. *)
Theorem win32_redirect_followed (h : host) (e0 : js_error)
    (res1 res2 : response) (out root : string) :
  mkdir_passes (mkdir_ffmpeg h) → access_ffmpeg h = FsFail e0 →
  net_first h = Response res1 →
  statusCode res1 = 301 ∨ statusCode res1 = 302 →
  net_second h (location res1) = Response res2 →
  statusCode res2 ≠ 301 → statusCode res2 ≠ 302 → ending res2 = BodyEnd →
  npm_install h = ExecOk out → unzip_result h = inr root →
  rename_result h = FsOk →
  ∃ tr, win32 h [] =
          (Ret tt,
           tr ++ [FsRename ("ffmpeg/" +:+ root) ("ffmpeg/" +:+ ffmpegFilename)])
        ∧ requests tr = [Some url; location res1]
        ∧ writes_to zip_path tr = chunks res2
        ∧ Unzip zip_path "ffmpeg" ∈ tr.
Proof.
  intros Hmk Hacc Hn1 Hs1 Hn2 H301 H302 Hend Hnpm Hzip Hren.
  rewrite (win32_absent h e0 Hmk Hacc).
  unfold catch. rewrite Hn1, (get_redirected _ _ _ _ _ Hs1).
  cbn [err_name err_message RedirectError]. rewrite decide_True by done.
  rewrite Hn2, get_body, Hend by done.
  unfold extract, await_unzip.
  cbv beta iota zeta delta [mbind M_bind bind emit].
  rewrite Hnpm. cbn. rewrite Hzip. cbn. rewrite Hren. cbn.
  exists (win32_prefix
            ++ [HttpsGet (Some url); HttpsGet (location res1)]
            ++ data_trace zip_path zip_name (content_length res2) 0
                 (chunks res2)
            ++ [WsEnd zip_path; Downloaded zip_name (bytes (chunks res2));
                Exec "npm install yauzl --no-save"; Unzip zip_path "ffmpeg"]).
  split; [| split; [| split]].
  - cbn. by rewrite <- !app_assoc.
  - rewrite !requests_app, requests_prefix, requests_data_trace. done.
  - unfold writes_to. rewrite !omap_app. cbn. rewrite app_nil_r.
    apply writes_to_data_trace.
  - rewrite !elem_of_app, !elem_of_cons. tauto.
Qed.

Lemma win32_redirect_followed_witness :
  let r1 := mk_response 302 (Some "https://a.example/x.zip") None [] BodyEnd in
  let r2 := mk_response 200 None (Some 2) [["P"; "K"]%byte] BodyEnd in
  ∃ tr, win32 (Sample.windows (Response r1) (Response r2)) [] =
          (Ret tt,
           tr ++ [FsRename ("ffmpeg/" +:+ "ffmpeg-5.1.2-full_build-shared")
                    ("ffmpeg/" +:+ ffmpegFilename)])
        ∧ requests tr = [Some url; location r1]
        ∧ writes_to zip_path tr = chunks r2
        ∧ Unzip zip_path "ffmpeg" ∈ tr.
Proof.
  apply (win32_redirect_followed
           (Sample.windows
              (Response (mk_response 302 (Some "https://a.example/x.zip")
                           None [] BodyEnd))
              (Response (mk_response 200 None (Some 2) [["P"; "K"]%byte]
                           BodyEnd)))
           Sample.enoent
           (mk_response 302 (Some "https://a.example/x.zip") None [] BodyEnd)
           (mk_response 200 None (Some 2) [["P"; "K"]%byte] BodyEnd)
           "added 1 package" "ffmpeg-5.1.2-full_build-shared");
    first [reflexivity | done | by left | by right].
Defined.

End Win32Paths.

(** ** The Windows branch and the exit status *)

Section Win32Exit.
Import Dispatcher.

Lemma main_win32 (h : host) :
  platform h = "win32" → arch h = "x64" →
  main h = match Win32.win32 (windows h) [] with
           | (Ret _, tr) => (ExitStatus 0, tr)
           | (Throw err, tr) => (ExitStatus 0, tr ++ [ConsoleErrorObj err])
           | (Exit code, tr) => (ExitStatus code, tr)
           | (Crash err, tr) => (UncaughtException err, tr)
           end.
Proof.
  intros Hos Hcpu. unfold main, script, neq. rewrite Hos, Hcpu. cbn.
  unfold catch. by destruct (Win32.win32 (windows h) []) as [[[]| | |] tr].
Qed.



End Win32Exit.

(** ** The three branches and the end of the process *)

Section ProcessEnd.
Import Dispatcher.

(** X12. On 64-bit Windows, when [mkdir('ffmpeg')] fails with an error
    other than EEXIST, nothing else is tried: the error is printed with
    [console.error] and the process ends with exit status 0. *)
Theorem main_win32_mkdir_error (h : host) (e : js_error) :
  platform h = "win32" → arch h = "x64" →
  Win32.mkdir_ffmpeg (windows h) = Win32.FsFail e →
  err_code e ≠ Some "EEXIST" →
  main h =
    (ExitStatus 0,
     [ConsoleLog "Checking/Installing FFmpeg dependencies for Beam Coder on Windows.";
      FsMkdir "ffmpeg";
      ConsoleErrorObj e]).
Proof.
  intros Hos Hcpu Hmk He.
  by rewrite (main_win32 h Hos Hcpu), (win32_run_mkdir_fails _ e Hmk He).
Qed.

Lemma main_win32_mkdir_error_witness :
  let eacces := mk_error "Error" (Some "permission denied") (Some "EACCES") "" in
  let h := mk_host "win32" "x64" (ExecOk "") (ExecOk "") (ExecOk "")
             (Win32.mk_host (Win32.FsFail eacces) Win32.FsOk
                (Transfer.RequestError Sample.econnreset)
                (λ _, Transfer.RequestError Sample.econnreset)
                (ExecOk "") (inr "root") Win32.FsOk) in
  main h =
    (ExitStatus 0,
     [ConsoleLog "Checking/Installing FFmpeg dependencies for Beam Coder on Windows.";
      FsMkdir "ffmpeg";
      ConsoleErrorObj eacces]).
Proof.
  apply (main_win32_mkdir_error
           (mk_host "win32" "x64" (ExecOk "") (ExecOk "") (ExecOk "")
              (Win32.mk_host
                 (Win32.FsFail
                    (mk_error "Error" (Some "permission denied")
                       (Some "EACCES") ""))
                 Win32.FsOk
                 (Transfer.RequestError Sample.econnreset)
                 (λ _, Transfer.RequestError Sample.econnreset)
                 (ExecOk "") (inr "root") Win32.FsOk))
           (mk_error "Error" (Some "permission denied") (Some "EACCES") ""));
    done.
Defined.

(** X13. On Linux, for every listing: the run prints one line
    "<library> is not installed." for each required library whose name
    does not occur in the listing, in the order of the source and each
    once, then the remediation text once, and exits with status 1; when
    no library is missing it prints none of this and ends with status 0. *)
Theorem linux_diagnostics (h : host) (listing : string) :
  platform h = "linux" → arch h = "x64" ∨ arch h = "arm64" →
  ldconfig h = ExecOk listing →
  main h =
    match filter (λ lib, absent listing lib = true) (Linux.required.*1) with
    | [] => (ExitStatus 0, header)
    | missing =>
        (ExitStatus 1,
         header ++ (not_installed <$> missing)
                ++ [ConsoleLog Linux.remediation])
    end
  ∧ ∀ lib, absent listing lib = true ↔ ¬ occurs_in lib listing.
Proof.
  intros Hos Hcpu Hld. split; [| intros lib; apply absent_spec].
  rewrite (main_linux h Hos Hcpu), Hld.
  pose proof (linux_run listing) as Hrun. cbv zeta in Hrun. rewrite Hrun.
  by destruct (filter _ _).
Qed.

Lemma linux_diagnostics_witness :
  let h := Sample.linux_host in
  let listing := Sample.listing_without_postproc in
  main h =
    match filter (λ lib, absent listing lib = true) (Linux.required.*1) with
    | [] => (ExitStatus 0, header)
    | missing =>
        (ExitStatus 1,
         header ++ (not_installed <$> missing)
                ++ [ConsoleLog Linux.remediation])
    end
  ∧ ∀ lib, absent listing lib = true ↔ ¬ occurs_in lib listing.
Proof.
  apply (linux_diagnostics Sample.linux_host Sample.listing_without_postproc);
    [reflexivity | by left | reflexivity].
Defined.

(** X14. On Linux, when [ldconfig -p] itself fails, its error is printed
    with [console.error], no library is checked, and the run ends in an
    unhandled rejection: the TypeError of reading [stdout] from nothing. *)
Theorem linux_query_failure (h : host) (err : js_error) :
  platform h = "linux" → arch h = "x64" ∨ arch h = "arm64" →
  ldconfig h = ExecFail err →
  main h =
    (UnhandledRejection (TypeError "Cannot destructure property 'stdout'"),
     header ++ [ConsoleErrorObj err]).
Proof.
  intros Hos Hcpu Hld. by rewrite (main_linux h Hos Hcpu), Hld.
Qed.

Lemma linux_query_failure_witness :
  let h := Sample.host "linux" "arm64" (ExecFail Sample.enoent)
             (ExecOk "") (ExecOk "") in
  main h =
    (UnhandledRejection (TypeError "Cannot destructure property 'stdout'"),
     header ++ [ConsoleErrorObj Sample.enoent]).
Proof.
  apply (linux_query_failure
           (Sample.host "linux" "arm64" (ExecFail Sample.enoent)
              (ExecOk "") (ExecOk ""))
           Sample.enoent); [reflexivity | by right | reflexivity].
Defined.

(** X15. On macOS the process ends with status 0 or 1 and nothing else;
    it ends with 0 exactly when the query succeeds, or fails with the
    not-found signal and the installation succeeds. The installation is
    never attempted after a query that succeeds. *)
Theorem darwin_exit_status (h : host) :
  platform h = "darwin" → arch h = "x64" ∨ arch h = "arm64" →
  ((main h).1 = ExitStatus 0 ∨ (main h).1 = ExitStatus 1)
  ∧ ((main h).1 = ExitStatus 0 ↔
       (∃ out, brew_list h = ExecOk out)
       ∨ (∃ err out, brew_list h = ExecFail err
                     ∧ not_found_signal err = true
                     ∧ brew_install h = ExecOk out))
  ∧ (∀ out, brew_list h = ExecOk out →
            Exec brew_install_command ∉ (main h).2).
Proof.
  intros Hos Hcpu. rewrite (main_darwin h Hos Hcpu).
  destruct (brew_list h) as [out | err].
  - rewrite darwin_present. split; [by left |]. split.
    + split; [intros _; left; by exists out | done].
    + intros ? _. cbn. rewrite !elem_of_cons, elem_of_nil.
      intros [? | [? | [? | [? | []]]]]; done.
  - rewrite darwin_query_failed. unfold not_found_signal.
    destruct (no_signal err) eqn:Hsig; cbn.
    + split; [by right |]. split; [| done].
      split; [done |]. intros [(out & [=]) | (e & out & [= <-] & Hs & _)].
      by rewrite Hsig in Hs.
    + destruct (brew_install h) as [out | err'] eqn:Hinst; cbn.
      * split; [by left |]. split; [| done].
        split; [| done]. intros _. right. exists err, out.
        by rewrite Hsig.
      * split; [by right |]. split; [| done].
        split; [done |].
        intros [(out & [=]) | (e & out & _ & _ & [=])].
Qed.

Lemma darwin_exit_status_witness :
  let h := Sample.darwin_host in
  ((main h).1 = ExitStatus 0 ∨ (main h).1 = ExitStatus 1)
  ∧ ((main h).1 = ExitStatus 0 ↔
       (∃ out, brew_list h = ExecOk out)
       ∨ (∃ err out, brew_list h = ExecFail err
                     ∧ not_found_signal err = true
                     ∧ brew_install h = ExecOk out))
  ∧ (∀ out, brew_list h = ExecOk out →
            Exec brew_install_command ∉ (main h).2).
Proof.
  apply (darwin_exit_status Sample.darwin_host); [reflexivity | by right].
Defined.


End ProcessEnd.

(** ** The dispatcher, on sample hosts *)

Section DispatcherSamples.
Import Dispatcher.

Lemma unsupported_arch_exits_1_witness :
  main (Sample.host "linux" "ia32" (ExecOk "") (ExecOk "") (ExecOk ""))
  = (ExitStatus 1, [ConsoleError "Only 64-bit platforms are supported."]).
Proof.
  apply (unsupported_arch_exits_1
           (Sample.host "linux" "ia32" (ExecOk "") (ExecOk "") (ExecOk "")));
    [right; by left | reflexivity].
Defined.

Lemma unsupported_no_side_effect_witness :
  side_effects
    (main (Sample.host "win32" "arm64" (ExecOk "") (ExecOk "") (ExecOk ""))).2
  = [].
Proof.
  apply (unsupported_no_side_effect
           (Sample.host "win32" "arm64" (ExecOk "") (ExecOk "") (ExecOk ""))).
  reflexivity.
Defined.

Lemma supported_runs_branch_witness :
  script (Sample.host "darwin" "arm64" (ExecOk "") (ExecOk "") (ExecOk ""))
  = run_branch BDarwin
      (Sample.host "darwin" "arm64" (ExecOk "") (ExecOk "") (ExecOk "")).
Proof.
  apply (supported_runs_branch
           (Sample.host "darwin" "arm64" (ExecOk "") (ExecOk "") (ExecOk ""))
           BDarwin).
  reflexivity.
Defined.

End DispatcherSamples.

(** ** The archive extractor, state by state *)

Section UnzipStates.
Import Unzip UnzipSpec.
Context `{Path}.
Variables archiveName destFolder : string.

(** X20. While an extraction runs, the counter [handles] is the number
    of write streams that have not yet emitted ['close'], plus one until
    the zipfile has emitted ['end']. *)
Theorem unzip_handles_count (dest_exists : bool) (entries : list string)
    (st : state) :
  reachable archiveName destFolder dest_exists entries st →
  handles st.1 = (if zip st.2 is ZEnded then 0 else 1)
                 + Z.of_nat (count is_open (streams st.2)).
Proof. intros Hinv%reachable_invariant. apply (inv_handles _ _ _ Hinv). Qed.

(** X21. The entries are read one at a time: at no moment of an
    extraction is more than one read stream awaited or piped, and none is
    while the zipfile is asked for its next entry. *)
Theorem unzip_sequential_reads (dest_exists : bool) (entries : list string)
    (st : state) :
  reachable archiveName destFolder dest_exists entries st →
  (readers st.2 ≤ 1)%nat
  ∧ (zip st.2 = ZRequested → readers st.2 = 0%nat).
Proof.
  intros Hinv%reachable_invariant. rewrite (inv_readers _ _ _ Hinv).
  split; [destruct (zip st.2); lia | by intros ->].
Qed.

(** X22. At every moment of an extraction the write streams created so
    far are those of the first file entries of the archive, in its
    order, each at [destFolder] joined with the name of its entry; no
    write stream is ever created for an entry whose name ends with a
    slash. *)
Theorem unzip_streams_prefix (dest_exists : bool) (entries : list string)
    (st : state) :
  reachable archiveName destFolder dest_exists entries st →
  (∃ rest, filter (λ f, is_file f = true) entries
           = (w_entry <$> streams st.2) ++ rest)
  ∧ created (trace st.1)
    = path_join destFolder <$> (w_entry <$> streams st.2)
  ∧ ∀ w, w ∈ streams st.2 → ends_with_slash (w_entry w) = false.
Proof.
  intros Hinv%reachable_invariant.
  destruct (inv_progress _ _ _ Hinv) as (emitted & Hent & Hfil).
  assert (Hpre : filter (λ f, is_file f = true) entries
                 = (w_entry <$> streams st.2)
                     ++ opening_list st.2
                     ++ filter (λ f, is_file f = true) (pending st.2)).
  { by rewrite Hent, filter_app, Hfil, <- app_assoc. }
  split; [by eexists |]. split.
  - by rewrite (inv_created _ _ _ Hinv), (inv_paths _ _ _ Hinv).
  - intros w Hw.
    assert (w_entry w ∈ filter (λ f, is_file f = true) entries) as Hin.
    { rewrite Hpre. apply elem_of_app. left. by apply list_elem_of_fmap_2. }
    apply list_elem_of_filter in Hin as [Hfile _]. unfold is_file in Hfile.
    by destruct (ends_with_slash (w_entry w)).
Qed.

(** X23. The order in which the host closes the write streams does not
    show in the result: two extractions of one archive that both call
    [resolve] resolve with the same root and have created the same
    files. *)
Theorem unzip_schedule_independent (dest_exists : bool)
    (entries : list string) (st1 st2 : state) (root1 root2 : string) :
  reachable archiveName destFolder dest_exists entries st1 →
  reachable archiveName destFolder dest_exists entries st2 →
  Resolve root1 ∈ settled st1.1 → Resolve root2 ∈ settled st2.1 →
  root1 = root2 ∧ created (trace st1.1) = created (trace st2.1).
Proof.
  intros Hr1 Hr2 Hin1 Hin2.
  destruct (unzip_result archiveName destFolder _ _ _ _ Hr1 Hin1) as [-> ->].
  destruct (unzip_result archiveName destFolder _ _ _ _ Hr2 Hin2) as [-> ->].
  done.
Qed.

(** X24. Once an extraction has called [resolve] the host has no event
    left for it: no entry, no read stream and no write stream is
    pending. *)
Theorem unzip_quiescent (dest_exists : bool) (entries : list string)
    (st st' : state) (root : string) (ev : event) :
  reachable archiveName destFolder dest_exists entries st →
  Resolve root ∈ settled st.1 →
  step archiveName destFolder ev st = Some st' →
  ev = EvUncaught.
Proof.
  intros Hinv%reachable_invariant Hin.
  destruct (resolved_finished _ _ _ _ Hinv Hin) as (Hz & _ & Hop & Hclosed).
  destruct st as [v e]. cbn in *. destruct (crashed e); [done |].
  destruct ev; rewrite ?Hz, ?Hop; try done.
  - destruct (streams e !! i) as [[en pa s]|] eqn:Hi; [| done].
    assert (s = Closed) as -> by
      (apply (Hclosed (mk_wstream en pa s)); by eapply list_elem_of_lookup_2).
    done.
  - destruct (streams e !! i) as [[en pa s]|] eqn:Hi; [| done].
    assert (s = Closed) as -> by
      (apply (Hclosed (mk_wstream en pa s)); by eapply list_elem_of_lookup_2).
    done.
Qed.

Lemma settled_nil (ss : list settle) :
  resolves ss = [] → rejects ss = [] → ss = [].
Proof. by destruct ss as [|[] ss]. Qed.

Lemma rejects_snoc (ss : list settle) (s : settle) :
  rejects (ss ++ [s])
  = rejects ss ++ match s with Reject err => [err] | Resolve _ => [] end.
Proof. unfold rejects. rewrite omap_app. by destruct s. Qed.

Lemma rejects_decHandles (v : vars) :
  rejects (settled (decHandles archiveName v)) = rejects (settled v).
Proof.
  unfold decHandles. cbn. destruct (handles v - 1 =? 0); [| done]. cbn.
  by rewrite rejects_snoc, app_nil_r.
Qed.

Lemma length_resolves (ss : list settle) :
  rejects ss = [] → length (resolves ss) = length ss.
Proof.
  induction ss as [|[] ss IH]; [done | | done].
  intros Hr. cbn. f_equal. by apply IH.
Qed.

#[local] Arguments resolves : simpl never.
#[local] Arguments rejects : simpl never.
#[local] Arguments created : simpl never.

Lemma step_rejected_once (entries : list string) (ev : event)
    (st st' : state) :
  invariant destFolder entries st → rejected_once st →
  step archiveName destFolder ev st = Some st' →
  rejected_once st'.
Proof.
  destruct st as [[hd rp se tr] [z pe op ss cr]].
  intros [Hh Hr _ _ Hres _ _ _ _] Hj. unfold rejected_once, readers in *.
  cbn in *. destruct cr; [done |].
  destruct Hj as [Hj | [[=] _]].
  assert (Hnil : z ≠ ZEnded → se = []).
  { intros Hz. apply settled_nil; [| done]. rewrite Hres.
    assert ((hd =? 0) = false) as -> by (destruct z; done || lia). done. }
  destruct ev; cbn.
  - destruct z; try done. intros [= <-]. by left.
  - destruct z; try done. intros [= <-]. right. split; [done |].
    exists err. cbn. by rewrite Hnil.
  - destruct z; try done. destruct pe; try done. unfold on_entry.
    destruct (ends_with_slash s); intros [= <-]; by left.
  - destruct z; try done. destruct pe; try done. intros [= <-]. left.
    cbn [fst]. by rewrite rejects_decHandles.
  - destruct op; try done. intros [= <-]. left. cbn.
    by destruct (rp =? "")%string, dir_exists.
  - destruct op; try done. intros [= <-]. right. split; [done |].
    exists err. cbn. rewrite Hnil; [done |]. destruct z; done || lia.
  - destruct (ss !! i) as [[en pa []]|]; try done. intros [= <-]. by left.
  - destruct (ss !! i) as [[en pa []]|]; try done. intros [= <-]. left.
    cbn [fst]. by rewrite rejects_decHandles.
  - intros [= <-]. by left.
Qed.

Lemma reachable_rejected_once (dest_exists : bool) (entries : list string)
    (st : state) :
  reachable archiveName destFolder dest_exists entries st → rejected_once st.
Proof.
  intros [evs Hrun].
  assert (Hgen : ∀ evs st0,
            invariant destFolder entries st0 → rejected_once st0 →
            run archiveName destFolder evs st0 = Some st → rejected_once st).
  { clear. intros evs. induction evs as [|ev evs IH]; intros st0 Hinv Hj; cbn.
    - by intros [= <-].
    - destruct (step archiveName destFolder ev st0) as [st1|] eqn:Hstep;
        [| done].
      apply IH; [by eapply step_invariant | by eapply step_rejected_once]. }
  apply (Hgen evs _ (start_invariant archiveName destFolder dest_exists
                       entries)); [| done].
  left. by destruct dest_exists.
Qed.

(** X25. The promise of an extraction is settled at most once, by
    [resolve] or by [reject]; and when [reject] has been called, nothing
    has been resolved and the process has ended on the exception that
    follows the call. *)
Theorem unzip_settles_once (dest_exists : bool) (entries : list string)
    (st : state) :
  reachable archiveName destFolder dest_exists entries st →
  (length (settled st.1) ≤ 1)%nat
  ∧ ∀ err, Reject err ∈ settled st.1 →
           crashed st.2 = true ∧ settled st.1 = [Reject err].
Proof.
  intros Hreach. pose proof (reachable_invariant _ _ _ _ _ Hreach) as Hinv.
  destruct (reachable_rejected_once _ _ _ Hreach)
    as [Hnone | (Hcr & err & Hset)].
  - split.
    + rewrite <- (length_resolves _ Hnone), (inv_resolves _ _ _ Hinv).
      destruct (handles st.1 =? 0); cbn; lia.
    + intros err Hin. exfalso. apply (elem_of_nil err).
      rewrite <- Hnone. unfold rejects. apply list_elem_of_omap.
      by exists (Reject err).
  - rewrite Hset. split; [cbn; lia |].
    intros err' Hin. apply list_elem_of_singleton in Hin as [= ->]. done.
Qed.

(** X26. When the archive cannot be opened, the extraction rejects with
    the error of [yauzl.open] and that is all: the exception that follows
    ends the process, and no file has been created. *)
Theorem unzip_open_failure (dest_exists : bool) (entries : list string)
    (err : js_error) (evs : list event) (st : state) :
  run archiveName destFolder (EvOpenFailed err :: evs)
    (start archiveName destFolder dest_exists entries) = Some st →
  evs = [] ∧ settled st.1 = [Reject err] ∧ created (trace st.1) = [].
Proof.
  destruct evs as [|ev evs]; destruct dest_exists; cbn; try done;
    by intros [= <-].
Qed.

Lemma split_slash_0_no_slash (s : string) :
  ¬ occurs_in "/" (split_slash_0 s).
Proof.
  intros (pre & post & Heq). revert pre Heq.
  induction s as [|c s IH]; intros pre Heq; cbn in Heq.
  - destruct pre; [| by rewrite append_cons in Heq].
    by rewrite append_nil_l, append_cons in Heq.
  - destruct (Ascii.eqb c "/") eqn:Hc.
    + destruct pre; [| by rewrite append_cons in Heq].
      by rewrite append_nil_l, append_cons in Heq.
    + destruct pre as [|d pre].
      * rewrite append_nil_l, append_cons in Heq. injection Heq as -> _.
        by rewrite Ascii.eqb_refl in Hc.
      * rewrite append_cons in Heq. injection Heq as _ Heq. by eapply IH.
Qed.

(** X27. The root the extraction keeps, and resolves with, never
    contains a slash: it names an entry directly under [destFolder]. *)
Theorem unzip_root_no_slash (dest_exists : bool) (entries : list string)
    (st : state) :
  reachable archiveName destFolder dest_exists entries st →
  ¬ occurs_in "/" (rootPath st.1)
  ∧ ∀ root, Resolve root ∈ settled st.1 → ¬ occurs_in "/" root.
Proof.
  intros Hinv%reachable_invariant.
  assert (Hroot : ¬ occurs_in "/" (rootPath st.1)).
  { rewrite (inv_root _ _ _ Hinv).
    induction (w_entry <$> streams st.2) as [|f files IH]; cbn.
    - intros (pre & post & Heq). destruct pre; [| by rewrite append_cons in Heq].
      by rewrite append_nil_l, append_cons in Heq.
    - destruct (split_slash_0 f =? "")%string; [done |].
      apply split_slash_0_no_slash. }
  split; [done |]. intros root Hin.
  by destruct (resolved_handles _ _ _ _ Hinv Hin) as [_ ->].
Qed.

End UnzipStates.

Section UnzipSamples.
Import Unzip UnzipSpec.
#[local] Existing Instance Sample.posix.

Lemma sequential_reachable :
  reachable "ffmpeg/x.zip" "ffmpeg" true Sample.archive Sample2.sequential.
Proof. exists (EvOpened :: schedule 0 Sample.archive). reflexivity. Defined.

Lemma sequential_resolved : Resolve "root" ∈ settled Sample2.sequential.1.
Proof. apply elem_of_cons. by left. Defined.

Lemma unzip_handles_count_witness :
  handles Sample.extraction.1
  = (if zip Sample.extraction.2 is ZEnded then 0 else 1)
    + Z.of_nat (count is_open (streams Sample.extraction.2)).
Proof.
  apply (unzip_handles_count "ffmpeg/x.zip" "ffmpeg" true Sample.archive
           Sample.extraction).
  apply extraction_reachable.
Defined.

Lemma unzip_sequential_reads_witness :
  (readers Sample.extraction.2 ≤ 1)%nat
  ∧ (zip Sample.extraction.2 = ZRequested → readers Sample.extraction.2 = 0%nat).
Proof.
  apply (unzip_sequential_reads "ffmpeg/x.zip" "ffmpeg" true Sample.archive
           Sample.extraction).
  apply extraction_reachable.
Defined.

Lemma unzip_streams_prefix_witness :
  (∃ rest, filter (λ f, is_file f = true) Sample.archive
           = (w_entry <$> streams Sample.extraction.2) ++ rest)
  ∧ created (trace Sample.extraction.1)
    = path_join "ffmpeg" <$> (w_entry <$> streams Sample.extraction.2)
  ∧ ∀ w, w ∈ streams Sample.extraction.2 → ends_with_slash (w_entry w) = false.
Proof.
  apply (unzip_streams_prefix "ffmpeg/x.zip" "ffmpeg" true Sample.archive
           Sample.extraction).
  apply extraction_reachable.
Defined.

Lemma unzip_schedule_independent_witness :
  "root" = "root"
  ∧ created (trace Sample.extraction.1) = created (trace Sample2.sequential.1).
Proof.
  apply (unzip_schedule_independent "ffmpeg/x.zip" "ffmpeg" true
           Sample.archive Sample.extraction Sample2.sequential "root" "root").
  - apply extraction_reachable.
  - apply sequential_reachable.
  - apply extraction_resolved.
  - apply sequential_resolved.
Defined.

Lemma unzip_quiescent_witness : EvUncaught = EvUncaught.
Proof.
  apply (unzip_quiescent "ffmpeg/x.zip" "ffmpeg" true Sample.archive
           Sample.extraction
           (Sample.extraction.1, crash Sample.extraction.2) "root" EvUncaught).
  - apply extraction_reachable.
  - apply extraction_resolved.
  - reflexivity.
Defined.

Lemma unzip_settles_once_witness :
  (length (settled Sample.extraction.1) ≤ 1)%nat
  ∧ ∀ err, Reject err ∈ settled Sample.extraction.1 →
           crashed Sample.extraction.2 = true
           ∧ settled Sample.extraction.1 = [Reject err].
Proof.
  apply (unzip_settles_once "ffmpeg/x.zip" "ffmpeg" true Sample.archive
           Sample.extraction).
  apply extraction_reachable.
Defined.

Lemma unzip_open_failure_witness :
  @nil event = []
  ∧ settled Sample2.unopened.1 = [Reject Sample.enoent]
  ∧ created (trace Sample2.unopened.1) = [].
Proof.
  apply (unzip_open_failure "ffmpeg/x.zip" "ffmpeg" true Sample.archive
           Sample.enoent [] Sample2.unopened).
  reflexivity.
Defined.

Lemma unzip_root_no_slash_witness :
  ¬ occurs_in "/" (rootPath Sample.extraction.1)
  ∧ ∀ root, Resolve root ∈ settled Sample.extraction.1 →
            ¬ occurs_in "/" root.
Proof.
  apply (unzip_root_no_slash "ffmpeg/x.zip" "ffmpeg" true Sample.archive
           Sample.extraction).
  apply extraction_reachable.
Defined.


End UnzipSamples.
